(** * Installation-plan generation of bk-nodeman: [apps/backend/agent/tools.py]

    A shallow embedding of the command planner ([fetch_gse_servers],
    [choose_script_file], [format_run_cmd_by_os_type], [check_run_commands],
    [gen_commands], [batch_gen_commands]) and the properties of it that the
    specification states. *)

From stdpp Require Import gmap strings list pretty.
From Stdlib Require Import Ascii String ZArith Lia.

Local Open Scope Z_scope.
Local Open Scope string_scope.
Local Open Scope list_scope.

(** ** Exceptions and results *)

(** The exceptions the planner can end with. *)
Inductive PyError : Type :=
  | GenCommandsError
  | KeyError
  | AttributeError
  | AliveProxyNotExistsError.

(** A call either returns a value or raises. *)
Inductive result (A : Type) : Type :=
  | Ok (a : A)
  | Raise (e : PyError).
Arguments Ok {A} a.
Arguments Raise {A} e.

#[export] Instance result_ret : MRet result := fun A a => Ok a.

#[export] Instance result_bind : MBind result := fun A B k m =>
  match m with
  | Ok a => k a
  | Raise e => Raise e
  end.

(** [d[k]] on a dict: a missing key raises [KeyError]. *)
Definition getitem {A : Type} (o : option A) : result A :=
  match o with
  | Some a => Ok a
  | None => Raise KeyError
  end.

(** The result of [host.get_random_alive_proxy]. *)
Definition alive_proxy {A : Type} (o : option A) : result A :=
  match o with
  | Some a => Ok a
  | None => Raise AliveProxyNotExistsError
  end.

(** [o.attr] on a reference that may be [None]. *)
Definition getattr {A B : Type} (o : option A) (f : A -> B) : result B :=
  match o with
  | Some a => Ok (f a)
  | None => Raise AttributeError
  end.

Definition is_ok {A : Type} (r : result A) : bool :=
  match r with
  | Ok _ => true
  | Raise _ => false
  end.

(** ** Python strings *)

Definition str_truthy (s : string) : bool :=
  match s with
  | EmptyString => false
  | String _ _ => true
  end.

Definition opt_str_truthy (o : option string) : bool :=
  match o with
  | Some s => str_truthy s
  | None => false
  end.

(** [a or b] where [a] is a string or [None]. *)
Definition str_or (a : option string) (b : string) : string :=
  match a with
  | Some s => if str_truthy s then s else b
  | None => b
  end.

(** [f"{x}"] for a string or [None]. *)
Definition fmt_opt_str (o : option string) : string :=
  match o with
  | Some s => s
  | None => "None"
  end.

(** [f"{x}"] for an int or [None]. *)
Definition fmt_opt_int (o : option Z) : string :=
  match o with
  | Some z => pretty z
  | None => "None"
  end.

Definition fmt_bool (b : bool) : string := if b then "True" else "False".

Definition ascii_lower (c : ascii) : ascii :=
  let n := N_of_ascii c in
  if ((65 <=? n) && (n <=? 90))%N then ascii_of_N (n + 32) else c.

(** [s.lower()], on ASCII. *)
Fixpoint lower (s : string) : string :=
  match s with
  | EmptyString => EmptyString
  | String c s' => String (ascii_lower c) (lower s')
  end.

(** [s.startswith(p)]. *)
Definition startswith (p s : string) : bool := String.prefix p s.

(** [sep.join(l)]. *)
Definition join (sep : string) (l : list string) : string := String.concat sep l.

(** The characters of a string, as Python iterates them: one-character
    strings. *)
Fixpoint chars (s : string) : list string :=
  match s with
  | EmptyString => []
  | String c s' => String c EmptyString :: chars s'
  end.

(** ** Regular expressions ([re.match]) *)

Inductive regex : Type :=
  | RNone
  | REps
  | RChr (c : ascii)
  | RDot
  | RSeq (r1 r2 : regex)
  | RAlt (r1 r2 : regex)
  | RStar (r : regex).

Definition newline : ascii := ascii_of_N 10.

Fixpoint nullable (r : regex) : bool :=
  match r with
  | RNone => false
  | REps => true
  | RChr _ => false
  | RDot => false
  | RSeq r1 r2 => nullable r1 && nullable r2
  | RAlt r1 r2 => nullable r1 || nullable r2
  | RStar _ => true
  end.

(** The derivative of [r] by the character [c].  [RDot] is Python's [.]
    without [re.DOTALL]: every character but the newline. *)
Fixpoint deriv (c : ascii) (r : regex) : regex :=
  match r with
  | RNone => RNone
  | REps => RNone
  | RChr c' => if Ascii.eqb c c' then REps else RNone
  | RDot => if Ascii.eqb c newline then RNone else REps
  | RSeq r1 r2 =>
      if nullable r1
      then RAlt (RSeq (deriv c r1) r2) (deriv c r2)
      else RSeq (deriv c r1) r2
  | RAlt r1 r2 => RAlt (deriv c r1) (deriv c r2)
  | RStar r1 => RSeq (deriv c r1) (RStar r1)
  end.

(** [s] as a whole is a word of [r]. *)
Fixpoint fullmatch (r : regex) (s : string) : bool :=
  match s with
  | EmptyString => nullable r
  | String c s' => fullmatch (deriv c r) s'
  end.

(** The words of a regular expression. *)
Inductive matches : regex -> string -> Prop :=
  | matches_eps : matches REps ""
  | matches_chr c : matches (RChr c) (String c "")
  | matches_dot c : c <> newline -> matches RDot (String c "")
  | matches_seq r1 r2 s1 s2 :
      matches r1 s1 -> matches r2 s2 -> matches (RSeq r1 r2) (s1 +:+ s2)
  | matches_alt_l r1 r2 s : matches r1 s -> matches (RAlt r1 r2) s
  | matches_alt_r r1 r2 s : matches r2 s -> matches (RAlt r1 r2) s
  | matches_star_nil r : matches (RStar r) ""
  | matches_star_app r s1 s2 :
      matches r s1 -> matches (RStar r) s2 -> matches (RStar r) (s1 +:+ s2).

(** No character of [s] is the newline. *)
Fixpoint no_newline (s : string) : bool :=
  match s with
  | EmptyString => true
  | String c s' => negb (Ascii.eqb c newline) && no_newline s'
  end.

Fixpoint RLit (s : string) : regex :=
  match s with
  | EmptyString => REps
  | String c s' => RSeq (RChr c) (RLit s')
  end.

Definition ROpt (r : regex) : regex := RAlt r REps.
Definition RPlus (r : regex) : regex := RSeq r (RStar r).

(** The pattern ["^-r https?://.+/backend$"] of [check_run_commands].
    [re.match] anchors at the start; [$] holds at the end of the string and
    just before a newline that ends the string, so the pattern matches the
    strings of [-r https?://.+/backend] followed by at most one newline. *)
Definition callback_pattern : regex :=
  RSeq (RLit "-r http")
    (RSeq (ROpt (RChr "s"))
       (RSeq (RLit "://")
          (RSeq (RPlus RDot)
             (RSeq (RLit "/backend") (ROpt (RChr newline)))))).

Definition re_match_callback (command : string) : bool :=
  fullmatch callback_pattern command.

(** ** [pathlib] *)

(** The components of a path between its separators. *)
Fixpoint split_slash (acc : string) (s : string) : list string :=
  match s with
  | EmptyString => [String.rev acc]
  | String c s' =>
      if Ascii.eqb c "/"
      then String.rev acc :: split_slash EmptyString s'
      else split_slash (String c acc) s'
  end.

Fixpoint leading_slashes (s : string) : nat :=
  match s with
  | String c s' => if Ascii.eqb c "/" then S (leading_slashes s') else O
  | EmptyString => O
  end.

(** The root of a POSIX path: ["//"] for exactly two leading separators,
    ["/"] for one or for three and more, none for a relative path. *)
Definition path_root (s : string) : string :=
  match leading_slashes s with
  | O => ""
  | 2%nat => "//"
  | _ => "/"
  end.

(** [Path(s)] as [pathlib] compares it: the root and the components, empty
    ones and ["."] dropped. *)
Definition Path (s : string) : string * list string :=
  (path_root s,
   filter (fun p => p <> "" /\ p <> ".") (split_slash EmptyString s)).

Definition path_eqb (p q : string * list string) : bool :=
  bool_decide (p = q).

(** ** Data model *)

(** [constants.NodeType]: the role of a host. *)
Inductive NodeType : Type := AGENT | PROXY | PAGENT.

#[export] Instance NodeType_eq_dec : EqDecision NodeType.
Proof. solve_decision. Defined.

Definition NodeType_str (t : NodeType) : string :=
  match t with
  | AGENT => "AGENT"
  | PROXY => "PROXY"
  | PAGENT => "PAGENT"
  end.

(** [constants.AuthType]. *)
Inductive AuthType : Type := KEY | PASSWORD.

(** [models.Host]: the columns the planner reads.  What the planner reads
    through the ORM properties of a host ([host.ap], [host.identity],
    [host.proxies], [host.install_channel]) is in [World] below. *)
Record Host : Type := {
  bk_host_id : Z;
  bk_cloud_id : Z;
  inner_ip : string;
  login_ip : option string;
  node_type : NodeType;
  os_type : string;
  install_channel_id : option Z;
  is_manual : bool;
  ap_id : Z;
}.

(** One server of an access point pool: a dict with the keys ["inner_ip"]
    and ["outer_ip"]. *)
Record Server : Type := {
  server_inner_ip : string;
  server_outer_ip : string;
}.

(** What [AccessPoint.get_agent_config] returns: a dict with the keys
    ["setup_path"] and ["temp_path"]. *)
Record AgentConfig : Type := {
  setup_path : string;
  temp_path : string;
}.

(** Modelled from the spec: the method [get_agent_config] of
    [models.AccessPoint] is not part of the planner's file.  The access
    point holds a per-OS table of setup and temp path; [None] is an OS the
    table lacks, for which the lookup raises [KeyError].  The other fields
    are the attributes of [models.AccessPoint] that the planner reads. *)
Record AccessPoint : Type := {
  btfileserver : list Server;
  dataserver : list Server;
  taskserver : list Server;
  package_inner_url : string;
  package_outer_url : string;
  outer_callback_url : option string;
  port_config : gmap string Z;
  get_agent_config : string -> option AgentConfig;
}.

(** [models.IdentityData]. *)
Record IdentityData : Type := {
  identity_bk_host_id : Z;
  auth_type : AuthType;
  key : option string;
  password : option string;
  account : string;
  port : Z;
}.

(** The upstream-server dict of an install channel; [None] is a key the
    dict lacks. *)
Record UpstreamServers : Type := {
  channel_btfileserver : option (list string);
  channel_dataserver : option (list string);
  channel_taskserver : option (list string);
  agent_download_proxy : option bool;
  channel_proxy_address : option string;
}.

(** An install channel: the jump server and the upstream servers. *)
Definition InstallChannel : Type := (option Host * UpstreamServers)%type.

(** [class InstallationTools]. *)
Record InstallationTools : Type := {
  script_file_name : string;
  dest_dir : string;
  win_commands : list string;
  upstream_nodes : list string;
  jump_server : option Host;
  pre_commands : list string;
  run_cmd : string;
  host : Host;
  ap : AccessPoint;
  identity_data : IdentityData;
  proxies : list Host;
}.

(** ** Configuration, constants and the outside world *)

(** [django.conf.settings], the values the planner reads. *)
Record Settings : Type := {
  BK_NODEMAN_NGINX_DOWNLOAD_PORT : string;
  BK_NODEMAN_NGINX_PROXY_PASS_PORT : string;
  BKAPP_NODEMAN_CALLBACK_URL : string;
  BKAPP_NODEMAN_OUTER_CALLBACK_URL : string;
  DOWNLOAD_PATH : string;
}.

(** The constants of [apps.node_man.constants] and
    [apps.backend.api.constants] and the helper [apps.utils.basic.suffix_slash]
    that the planner uses; their modules are not part of the planner's file,
    so they are parameters here. *)
Record Constants : Type := {
  SETUP_PAGENT_PY : string;
  GSECTL_BAT : string;
  SCRIPT_FILE_NAME_MAP : gmap string string;
  OsType_LINUX : string;
  OsType_WINDOWS : string;
  OS_WINDOWS : string;
  OS_AIX : string;
  SUFFIX_MAP : gmap string string;
  suffix_slash : string -> string -> string;
}.

(** What the planner gets from outside during one batch: the record store
    behind the ORM properties, the token issuer, and the order in which the
    interpreter iterates a set. *)
Record World : Type := {
  Host_ap : Host -> AccessPoint;
  Host_identity : Host -> IdentityData;
  Host_proxies : Host -> list Host;
  Host_install_channel : Host -> InstallChannel;
  AccessPoint_ap_id_obj_map : gmap Z AccessPoint;
  IdentityData_filter : list Z -> list IdentityData;
  aes_cipher_encrypt : string -> string;
  list_set : list string -> list string;
}.

(** [list(set(l))] returns the distinct elements of [l] in some order. *)
Definition list_set_ok (f : list string -> list string) : Prop :=
  forall l, NoDup (f l) /\ forall x, x ∈ f l <-> x ∈ l.

(** Modelled from the spec: the method [get_random_alive_proxy] of
    [models.Host] is not part of the planner's file.  It selects one live
    proxy at random from the candidates; [None] is the case that none is
    alive, in which the method raises.  A [Call] is what one call of
    [gen_commands] gets from outside: that pick, and the clock reading
    [time.time()] as the f-string prints it. *)
Record Call : Type := {
  time_time : string;
  get_random_alive_proxy : Host -> list Host -> option Host;
}.

(** The truth value of [host.install_channel_id]: [None] and [0] are
    false. *)
Definition has_install_channel (h : Host) : bool :=
  match install_channel_id h with
  | Some i => negb (Z.eqb i 0)
  | None => false
  end.

(** [a or b] on a list that may be [None]. *)
Definition list_or {A : Type} (a : option (list A)) (b : list A) : list A :=
  match a with
  | Some (x :: l) => x :: l
  | _ => b
  end.

(** The double quote. *)
Definition dq : string := String (ascii_of_N 34) EmptyString.

(** ** The planner *)

Section Planner.

Variable settings : Settings.
Variable constants : Constants.
Variable world : World.

Definition gen_nginx_download_url (nginx_ip : string) : string :=
  "http://" +:+ nginx_ip +:+ ":" +:+ BK_NODEMAN_NGINX_DOWNLOAD_PORT settings +:+ "/".

Definition fetch_gse_servers (call : Call) (host : Host) (host_ap : AccessPoint)
    (proxies : list Host) (install_channel : InstallChannel)
  : result (option Host * string * string * string * string * string * string) :=
  if has_install_channel host then
    let '(jump_server, upstream_servers) := install_channel in
    btfileserver ← getitem (channel_btfileserver upstream_servers);
    let bt_file_servers := join "," btfileserver in
    dataserver ← getitem (channel_dataserver upstream_servers);
    let data_servers := join "," dataserver in
    taskserver ← getitem (channel_taskserver upstream_servers);
    let task_servers := join "," taskserver in
    jump_server_inner_ip ← getattr jump_server inner_ip;
    let package_url := gen_nginx_download_url jump_server_inner_ip in
    let default_callback_url :=
      if decide (node_type host = AGENT)
      then BKAPP_NODEMAN_CALLBACK_URL settings
      else BKAPP_NODEMAN_OUTER_CALLBACK_URL settings in
    let callback_url := str_or (outer_callback_url host_ap) default_callback_url in
    mret (jump_server, bt_file_servers, data_servers, data_servers, task_servers,
          package_url, callback_url)
  else
    match node_type host with
    | AGENT =>
        let bt_file_servers := join "," (map server_inner_ip (btfileserver host_ap)) in
        let data_servers := join "," (map server_inner_ip (dataserver host_ap)) in
        let task_servers := join "," (map server_inner_ip (taskserver host_ap)) in
        let package_url := package_inner_url host_ap in
        let callback_url := BKAPP_NODEMAN_CALLBACK_URL settings in
        mret (None, bt_file_servers, data_servers, data_servers, task_servers,
              package_url, callback_url)
    | PROXY =>
        let bt_file_servers := join "," (map server_outer_ip (btfileserver host_ap)) in
        let data_servers := join "," (map server_outer_ip (dataserver host_ap)) in
        let task_servers := join "," (map server_outer_ip (taskserver host_ap)) in
        let package_url := package_outer_url host_ap in
        let callback_url :=
          str_or (outer_callback_url host_ap) (BKAPP_NODEMAN_OUTER_CALLBACK_URL settings) in
        mret (None, bt_file_servers, data_servers, data_servers, task_servers,
              package_url, callback_url)
    | PAGENT =>
        let proxy_ips := list_set world (map inner_ip proxies) in
        jump_server ← alive_proxy (get_random_alive_proxy call host proxies);
        let bt_file_servers := join "," proxy_ips in
        let data_servers := join "," proxy_ips in
        let task_servers := join "," proxy_ips in
        let package_url := package_outer_url host_ap in
        let callback_url :=
          str_or (outer_callback_url host_ap) (BKAPP_NODEMAN_OUTER_CALLBACK_URL settings) in
        mret (Some jump_server, bt_file_servers, data_servers, data_servers, task_servers,
              package_url, callback_url)
    end.

(** The data-server string that each branch of [fetch_gse_servers]
    resolves: the channel's pool, the inner or the outer addresses of the
    access point's pool, or the inner addresses of the proxies. *)
Definition resolved_data_servers (host : Host) (host_ap : AccessPoint)
    (proxies : list Host) (install_channel : InstallChannel) : result string :=
  if has_install_channel host then
    dataserver ← getitem (channel_dataserver install_channel.2);
    mret (join "," dataserver)
  else
    match node_type host with
    | AGENT => mret (join "," (map server_inner_ip (dataserver host_ap)))
    | PROXY => mret (join "," (map server_outer_ip (dataserver host_ap)))
    | PAGENT => mret (join "," (list_set world (map inner_ip proxies)))
    end.

(** The task-server string that each branch of [fetch_gse_servers]
    resolves. *)
Definition resolved_task_servers (host : Host) (host_ap : AccessPoint)
    (proxies : list Host) (install_channel : InstallChannel) : result string :=
  if has_install_channel host then
    taskserver ← getitem (channel_taskserver install_channel.2);
    mret (join "," taskserver)
  else
    match node_type host with
    | AGENT => mret (join "," (map server_inner_ip (taskserver host_ap)))
    | PROXY => mret (join "," (map server_outer_ip (taskserver host_ap)))
    | PAGENT => mret (join "," (list_set world (map inner_ip proxies)))
    end.

Definition choose_script_file (host : Host) : result string :=
  if decide (node_type host = PROXY) then mret "setup_proxy.sh"
  else if has_install_channel host || bool_decide (node_type host = PAGENT)
  then mret (SETUP_PAGENT_PY constants)
  else getitem (SCRIPT_FILE_NAME_MAP constants !! os_type host).

Definition format_run_cmd_by_os_type (os_type : string) (run_cmd : option string)
  : result string :=
  let os_type := lower os_type in
  if bool_decide (os_type = OS_WINDOWS constants) && opt_str_truthy run_cmd
  then mret (fmt_opt_str run_cmd)
  else
    suffix ← getitem (SUFFIX_MAP constants !! os_type);
    aix_suffix ← getitem (SUFFIX_MAP constants !! OS_AIX constants);
    let shell := if bool_decide (suffix <> aix_suffix) then "bash" else suffix in
    mret (if opt_str_truthy run_cmd
          then "nohup " +:+ shell +:+ " " +:+ fmt_opt_str run_cmd +:+ " &"
          else shell).

Fixpoint check_run_commands (run_commands : list string) : result unit :=
  match run_commands with
  | [] => mret ()
  | command :: run_commands' =>
      if startswith "-r" command
      then
        if negb (re_match_callback command)
        then Raise GenCommandsError
        else check_run_commands run_commands'
      else check_run_commands run_commands'
  end.

(** The payload of the session token. *)
Definition token_payload (call : Call) (host : Host) (pipeline_id : string) : string :=
  inner_ip host +:+ "|" +:+ pretty (bk_cloud_id host) +:+ "|" +:+ pipeline_id
    +:+ "|" +:+ time_time call.

(** The initial value of [run_cmd_params] in [gen_commands]. *)
Definition base_run_cmd_params (pipeline_id callback_url package_url token : string)
    (port_config : gmap string Z) (bt_file_servers data_servers task_servers : string)
  : list string :=
  [ "-s " +:+ pipeline_id;
    "-r " +:+ callback_url;
    "-l " +:+ package_url;
    "-c " +:+ token;
    "-O " +:+ fmt_opt_int (port_config !! "io_port");
    "-E " +:+ fmt_opt_int (port_config !! "file_svr_port");
    "-A " +:+ fmt_opt_int (port_config !! "data_port");
    "-V " +:+ fmt_opt_int (port_config !! "btsvr_thrift_port");
    "-B " +:+ fmt_opt_int (port_config !! "bt_port");
    "-S " +:+ fmt_opt_int (port_config !! "bt_port_start");
    "-Z " +:+ fmt_opt_int (port_config !! "bt_port_end");
    "-K " +:+ fmt_opt_int (port_config !! "tracker_port");
    "-e " +:+ dq +:+ bt_file_servers +:+ dq;
    "-a " +:+ dq +:+ data_servers +:+ dq;
    "-k " +:+ dq +:+ task_servers +:+ dq ].

(** The branch of [gen_commands] for the script [SETUP_PAGENT_PY]: the
    install runs on the jump server. *)
Definition relay_commands (host : Host) (is_uninstall : bool)
    (identity_data : IdentityData) (host_ap : AccessPoint) (jump_server : option Host)
    (agent_config : AgentConfig) (package_url script_file_name : string)
    (run_cmd_params : list string)
  : result (string * list string * list string * string * string) :=
  let install_path := setup_path agent_config in
  let win_commands : list string := [] in
  let run_cmd_params := run_cmd_params ++ ["-L " +:+ DOWNLOAD_PATH settings] in
  linux_agent_config ← getitem (get_agent_config host_ap (OsType_LINUX constants));
  let dest_dir := temp_path linux_agent_config in
  let dest_dir := suffix_slash constants (OsType_LINUX constants) dest_dir in
  let run_cmd_params :=
    if is_manual host
    then (dest_dir +:+ script_file_name +:+ " ") :: run_cmd_params
    else run_cmd_params in
  let host_tmp_path :=
    suffix_slash constants (lower (os_type host)) (temp_path agent_config) in
  let host_identity :=
    match auth_type identity_data with
    | KEY => key identity_data
    | PASSWORD => password identity_data
    end in
  host_shell ← format_run_cmd_by_os_type (os_type host) None;
  host_script ← getitem (SCRIPT_FILE_NAME_MAP constants !! os_type host);
  let run_cmd_params :=
    run_cmd_params ++
    [ "-HLIP " +:+ str_or (login_ip host) (inner_ip host);
      "-HIIP " +:+ inner_ip host;
      "-HA " +:+ account identity_data;
      "-HP " +:+ pretty (port identity_data);
      "-HI '" +:+ fmt_opt_str host_identity +:+ "'";
      "-HC " +:+ pretty (bk_cloud_id host);
      "-HNT " +:+ NodeType_str (node_type host);
      "-HOT " +:+ lower (os_type host);
      "-HDD '" +:+ host_tmp_path +:+ "'";
      "-HPP '" +:+ BK_NODEMAN_NGINX_PROXY_PASS_PORT settings +:+ "'";
      "-HSN '" +:+ host_script +:+ "'";
      "-HS '" +:+ host_shell +:+ "'" ] in
  jump_server_inner_ip ← getattr jump_server inner_ip;
  let run_cmd_params :=
    run_cmd_params ++
    [ "-p '" +:+ install_path +:+ "'";
      "-I " +:+ jump_server_inner_ip;
      "-o " +:+ gen_nginx_download_url jump_server_inner_ip;
      if is_uninstall then "-R" else "" ] in
  let run_cmd_params :=
    if has_install_channel host then
      let '(_, upstream_servers) := Host_install_channel world host in
      let agent_download_proxy := default true (agent_download_proxy upstream_servers) in
      let run_cmd_params :=
        if agent_download_proxy
        then run_cmd_params ++ ["-ADP '" +:+ fmt_bool agent_download_proxy +:+ "'"]
        else run_cmd_params in
      let channel_proxy_address := channel_proxy_address upstream_servers in
      if opt_str_truthy channel_proxy_address
      then run_cmd_params ++ ["-CPA '" +:+ fmt_opt_str channel_proxy_address +:+ "'"]
      else run_cmd_params
    else run_cmd_params in
  let run_cmd := join " " run_cmd_params in
  let download_cmd :=
    "if [ ! -e " +:+ dest_dir +:+ script_file_name +:+ " ] || "
    +:+ "[ `curl " +:+ package_url +:+ "/" +:+ script_file_name
    +:+ " -s | md5sum | awk '{print $1}'` "
    +:+ "!= `md5sum " +:+ dest_dir +:+ script_file_name +:+ " | awk '{print $1}'` ]; then "
    +:+ "curl " +:+ package_url +:+ "/" +:+ script_file_name +:+ " -o " +:+ dest_dir
    +:+ script_file_name +:+ " --connect-timeout 5 -sSf "
    +:+ "&& chmod +x " +:+ dest_dir +:+ script_file_name +:+ "; fi" in
  mret (dest_dir, win_commands, run_cmd_params, run_cmd, download_cmd).

(** The branch of [gen_commands] for every other script: the install runs
    on the host itself. *)
Definition direct_commands (host : Host) (is_uninstall : bool) (host_ap : AccessPoint)
    (agent_config : AgentConfig) (package_url script_file_name dest_dir : string)
    (run_cmd_params : list string)
  : result (string * list string * list string * string * string) :=
  let install_path := setup_path agent_config in
  let win_commands : list string := [] in
  let run_cmd_params :=
    run_cmd_params ++
    [ "-i " +:+ pretty (bk_cloud_id host);
      "-I " +:+ inner_ip host;
      "-N SERVER";
      "-p " +:+ install_path;
      "-T " +:+ dest_dir;
      if is_uninstall then "-R" else "" ] in
  run_cmd ← format_run_cmd_by_os_type (os_type host)
    (Some (dest_dir +:+ script_file_name +:+ " " +:+ join " " run_cmd_params));
  let win_commands :=
    if bool_decide (os_type host = OsType_WINDOWS constants) then
      let win_remove_cmd :=
        "del /q /s /f " +:+ dest_dir +:+ script_file_name +:+ " "
        +:+ dest_dir +:+ GSECTL_BAT constants in
      let win_download_cmd :=
        dest_dir +:+ "curl.exe " +:+ package_inner_url host_ap +:+ "/" +:+ script_file_name
        +:+ " -o " +:+ dest_dir +:+ script_file_name +:+ " -sSf" in
      [win_remove_cmd; win_download_cmd; run_cmd]
    else win_commands in
  let download_cmd :=
    "curl " +:+ package_url +:+ "/" +:+ script_file_name +:+ " -o " +:+ dest_dir
    +:+ script_file_name +:+ " --connect-timeout 5 -sSf" in
  mret (dest_dir, win_commands, run_cmd_params, run_cmd, download_cmd).

(** [gen_commands], returning next to the plan the final value of its local
    [run_cmd_params]. *)
Definition gen_commands_params (call : Call) (host : Host) (pipeline_id : string)
    (is_uninstall : bool) (identity_data : option IdentityData)
    (host_ap : option AccessPoint) (proxies : option (list Host))
    (install_channel : option InstallChannel)
  : result (InstallationTools * list string) :=
  let host_ap := default (Host_ap world host) host_ap in
  let identity_data := default (Host_identity world host) identity_data in
  let install_channel := default (Host_install_channel world host) install_channel in
  let proxies := list_or proxies (Host_proxies world host) in
  let win_commands : list string := [] in
  '(jump_server, bt_file_servers, _, data_servers, task_servers, package_url, callback_url)
    ← fetch_gse_servers call host host_ap proxies install_channel;
  let upstream_nodes := task_servers in
  agent_config ← getitem (get_agent_config host_ap (os_type host));
  let install_path := setup_path agent_config in
  let token := aes_cipher_encrypt world (token_payload call host pipeline_id) in
  let port_config := port_config host_ap in
  let run_cmd_params :=
    base_run_cmd_params pipeline_id callback_url package_url token port_config
      bt_file_servers data_servers task_servers in
  _ ← check_run_commands run_cmd_params;
  script_file_name ← choose_script_file host;
  let dest_dir := temp_path agent_config in
  let dest_dir := suffix_slash constants (lower (os_type host)) dest_dir in
  '(dest_dir, win_commands, run_cmd_params, run_cmd, download_cmd) ←
    (if bool_decide (script_file_name = SETUP_PAGENT_PY constants)
     then relay_commands host is_uninstall identity_data host_ap jump_server agent_config
            package_url script_file_name run_cmd_params
     else direct_commands host is_uninstall host_ap agent_config package_url
            script_file_name dest_dir run_cmd_params);
  let chmod_cmd := "chmod +x " +:+ dest_dir +:+ script_file_name in
  let pre_commands := [download_cmd; chmod_cmd] in
  let pre_commands :=
    if negb (path_eqb (Path dest_dir) (Path "/tmp"))
    then ("mkdir -p " +:+ dest_dir) :: pre_commands
    else pre_commands in
  let upstream_nodes := list_set world (chars upstream_nodes) in
  mret ({| script_file_name := script_file_name;
           dest_dir := dest_dir;
           win_commands := win_commands;
           upstream_nodes := upstream_nodes;
           jump_server := jump_server;
           pre_commands := pre_commands;
           run_cmd := run_cmd;
           host := host;
           ap := host_ap;
           identity_data := identity_data;
           proxies := proxies |},
        run_cmd_params).

Definition gen_commands (call : Call) (host : Host) (pipeline_id : string)
    (is_uninstall : bool) (identity_data : option IdentityData)
    (host_ap : option AccessPoint) (proxies : option (list Host))
    (install_channel : option InstallChannel)
  : result InstallationTools :=
  '(plan, _) ← gen_commands_params call host pipeline_id is_uninstall identity_data
                 host_ap proxies install_channel;
  mret plan.

(** The three dicts that the loop of [batch_gen_commands] updates. *)
Record BatchState : Type := {
  host_id__installation_tool_map : gmap Z InstallationTools;
  install_channel_id_obj_map : gmap (option Z) InstallChannel;
  cloud_id_proxies_map : gmap Z (list Host);
}.

(** The three dicts before the loop. *)
Definition empty_batch_state : BatchState :=
  {| host_id__installation_tool_map := ∅;
     install_channel_id_obj_map := ∅;
     cloud_id_proxies_map := ∅ |}.

(** The dict comprehension over the identities fetched in bulk: a later
    identity of a host replaces an earlier one. *)
Definition host_id_identity_map (bk_host_ids : list Z) : gmap Z IdentityData :=
  foldl (fun m identity => <[identity_bk_host_id identity := identity]> m) ∅
    (IdentityData_filter world bk_host_ids).

(** The body of the loop of [batch_gen_commands] for one host. *)
Definition batch_step (call : Call) (pipeline_id : string) (is_uninstall : bool)
    (identities : gmap Z IdentityData) (st : BatchState) (host : Host)
  : result BatchState :=
  host_ap ← getitem (AccessPoint_ap_id_obj_map world !! ap_id host);
  let identity_data := default (Host_identity world host) (identities !! bk_host_id host) in
  let cloud_id_proxies_map :=
    match cloud_id_proxies_map st !! bk_cloud_id host with
    | Some _ => cloud_id_proxies_map st
    | None => <[bk_cloud_id host := Host_proxies world host]> (cloud_id_proxies_map st)
    end in
  proxies ← getitem (cloud_id_proxies_map !! bk_cloud_id host);
  let install_channel_id_obj_map :=
    match install_channel_id_obj_map st !! install_channel_id host with
    | Some _ => install_channel_id_obj_map st
    | None =>
        <[install_channel_id host := Host_install_channel world host]>
          (install_channel_id_obj_map st)
    end in
  install_channel ← getitem (install_channel_id_obj_map !! install_channel_id host);
  plan ← gen_commands call host pipeline_id is_uninstall (Some identity_data)
           (Some host_ap) (Some proxies) (Some install_channel);
  mret {| host_id__installation_tool_map :=
            <[bk_host_id host := plan]> (host_id__installation_tool_map st);
          install_channel_id_obj_map := install_channel_id_obj_map;
          cloud_id_proxies_map := cloud_id_proxies_map |}.

(** The loop over the hosts; [calls i] is what the call of [gen_commands]
    for the host at position [i] gets from outside. *)
Fixpoint batch_loop (calls : nat -> Call) (i : nat) (pipeline_id : string)
    (is_uninstall : bool) (identities : gmap Z IdentityData) (hosts : list Host)
    (st : BatchState) : result BatchState :=
  match hosts with
  | [] => mret st
  | host :: hosts' =>
      st' ← batch_step (calls i) pipeline_id is_uninstall identities st host;
      batch_loop calls (S i) pipeline_id is_uninstall identities hosts' st'
  end.

Definition batch_gen_commands (calls : nat -> Call) (hosts : list Host)
    (pipeline_id : string) (is_uninstall : bool) : result (gmap Z InstallationTools) :=
  let bk_host_ids := map bk_host_id hosts in
  let identities := host_id_identity_map bk_host_ids in
  st ← batch_loop calls 0 pipeline_id is_uninstall identities hosts empty_batch_state;
  mret (host_id__installation_tool_map st).

End Planner.

(** ** Vocabulary of the properties *)

(** Two runs read the same from outside: the same clock reading, the same
    token for a payload, and the same records behind the properties of a
    host.  The proxy that is picked at random and the order in which a set
    is iterated are not among these. *)
Definition same_records (w1 w2 : World) (c1 c2 : Call) : Prop :=
  time_time c1 = time_time c2 /\
  (forall payload, aes_cipher_encrypt w1 payload = aes_cipher_encrypt w2 payload) /\
  (forall h, Host_ap w1 h = Host_ap w2 h) /\
  (forall h, Host_identity w1 h = Host_identity w2 h) /\
  (forall h, Host_proxies w1 h = Host_proxies w2 h) /\
  (forall h, Host_install_channel w1 h = Host_install_channel w2 h).

(** The hosts for which [fetch_gse_servers] picks a proxy at random and joins
    a set of proxy addresses: a [PAGENT] without install channel. *)
Definition picks_proxy (h : Host) : bool :=
  negb (has_install_channel h) && bool_decide (node_type h = PAGENT).

(** Two runs ended the same way but for the order of the upstream nodes:
    with the same exception, or with plans that agree in every field except
    [upstream_nodes], which each run iterates in its own order from the set
    of the same characters. *)
Definition same_plan_but_set_order (w1 w2 : World)
    (r1 r2 : result InstallationTools) : Prop :=
  match r1, r2 with
  | Ok plan1, Ok plan2 =>
      script_file_name plan1 = script_file_name plan2 /\
      dest_dir plan1 = dest_dir plan2 /\
      win_commands plan1 = win_commands plan2 /\
      jump_server plan1 = jump_server plan2 /\
      pre_commands plan1 = pre_commands plan2 /\
      run_cmd plan1 = run_cmd plan2 /\
      host plan1 = host plan2 /\
      ap plan1 = ap plan2 /\
      identity_data plan1 = identity_data plan2 /\
      proxies plan1 = proxies plan2 /\
      (exists task_servers,
         upstream_nodes plan1 = list_set w1 (chars task_servers) /\
         upstream_nodes plan2 = list_set w2 (chars task_servers)) /\
      (list_set_ok (list_set w1) -> list_set_ok (list_set w2) ->
       upstream_nodes plan1 ≡ₚ upstream_nodes plan2)
  | Raise e1, Raise e2 => e1 = e2
  | _, _ => False
  end.

(** In the suffix table, the suffix of AIX is the suffix of AIX alone. *)
Definition aix_suffix_unique (constants : Constants) : Prop :=
  forall os suffix,
    SUFFIX_MAP constants !! os = Some suffix ->
    SUFFIX_MAP constants !! OS_AIX constants = Some suffix ->
    os = OS_AIX constants.

(** The check that [check_run_commands] makes of one command. *)
Definition command_ok (command : string) : bool :=
  negb (startswith "-r" command) || re_match_callback command.

(** The parameter of the uninstall flag. *)
Definition uninstall_flag (is_uninstall : bool) : string :=
  if is_uninstall then "-R" else "".

(** The parameters that the relay branch of [gen_commands] appends for a
    host with an install channel: the flags of the channel that the host
    itself refers to. *)
Definition channel_flags (world : World) (h : Host) : list string :=
  if has_install_channel h then
    let us := (Host_install_channel world h).2 in
    (if default true (agent_download_proxy us) then ["-ADP 'True'"] else [])
    ++ (if opt_str_truthy (channel_proxy_address us)
        then ["-CPA '" +:+ fmt_opt_str (channel_proxy_address us) +:+ "'"]
        else [])
  else [].

#[export] Instance PyError_eq_dec : EqDecision PyError.
Proof. solve_decision. Defined.

(** The call ended with the exception [e]. *)
Definition raises {A : Type} (e : PyError) (r : result A) : bool :=
  match r with
  | Ok _ => false
  | Raise e' => bool_decide (e' = e)
  end.

(** The pre-commands of a plan with the destination directory [dest], the
    script [script] and the download command [dl]. *)
Definition pre_commands_of (dest script dl : string) : list string :=
  (if path_eqb (Path dest) (Path "/tmp") then [] else ["mkdir -p " +:+ dest])
  ++ [dl; "chmod +x " +:+ dest +:+ script].

(** The first host of [hosts] whose [key] is [k]. *)
Fixpoint first_with {K : Type} `{EqDecision K} (key : Host -> K) (k : K)
    (hosts : list Host) : option Host :=
  match hosts with
  | [] => None
  | h :: hosts' => if decide (key h = k) then Some h else first_with key k hosts'
  end.

(** The caches of [batch_gen_commands] after the hosts [done]: each cloud
    region holds the proxies, and each install channel id the channel, of
    the first host that came with it. *)
Definition caches_of (world : World) (done : list Host) (st : BatchState) : Prop :=
  (forall c,
     cloud_id_proxies_map st !! c
     = Host_proxies world <$> first_with bk_cloud_id c done) /\
  (forall c,
     install_channel_id_obj_map st !! c
     = Host_install_channel world <$> first_with install_channel_id c done).

(** ** A sample installation *)

(** A deployment on which the planner is evaluated: its settings and
    constants, one access point, hosts of every role, and a record store. *)
Module Sample.

Definition settings : Settings := {|
  BK_NODEMAN_NGINX_DOWNLOAD_PORT := "17980";
  BK_NODEMAN_NGINX_PROXY_PASS_PORT := "17981";
  BKAPP_NODEMAN_CALLBACK_URL := "http://example.com/backend";
  BKAPP_NODEMAN_OUTER_CALLBACK_URL := "http://outer.example.com/backend";
  DOWNLOAD_PATH := "/data/bkee/public/bknodeman/download";
|}.

(** Modelled from the spec: the helper [suffix_slash] of
    [apps.utils.basic] is not part of the planner's file.  The destination
    directory carries the trailing path separator of the OS: the path with
    the separator at its end, added when it is not there. *)
Definition suffix_slash_by_os (os path : string) : string :=
  let sep := if bool_decide (lower os = "windows") then "\" else "/" in
  if bool_decide (String.length path = 0%nat) then sep
  else if bool_decide (substring (String.length path - 1) 1 path = sep) then path
  else path +:+ sep.

(** The script names, OS tags and shell suffixes of the deployment. *)
Definition constants : Constants := {|
  SETUP_PAGENT_PY := "setup_pagent.py";
  GSECTL_BAT := "gsectl.bat";
  SCRIPT_FILE_NAME_MAP :=
    {[ "LINUX" := "setup_agent.sh"; "WINDOWS" := "setup_agent.bat";
       "AIX" := "setup_agent.ksh" ]};
  OsType_LINUX := "LINUX";
  OsType_WINDOWS := "WINDOWS";
  OS_WINDOWS := "windows";
  OS_AIX := "aix";
  SUFFIX_MAP := {[ "linux" := "sh"; "windows" := "bat"; "aix" := "ksh" ]};
  suffix_slash := suffix_slash_by_os;
|}.

Definition agent_config (os : string) : option AgentConfig :=
  if bool_decide (lower os = "windows")
  then Some {| setup_path := "C:\gse"; temp_path := "C:\tmp" |}
  else Some {| setup_path := "/usr/local/gse"; temp_path := "/tmp" |}.

Definition access_point : AccessPoint := {|
  btfileserver := [ {| server_inner_ip := "10.1.0.1"; server_outer_ip := "203.0.113.1" |} ];
  dataserver := [ {| server_inner_ip := "10.1.0.2"; server_outer_ip := "203.0.113.2" |} ];
  taskserver :=
    [ {| server_inner_ip := "10.1.0.3"; server_outer_ip := "203.0.113.3" |};
      {| server_inner_ip := "10.1.0.4"; server_outer_ip := "203.0.113.4" |} ];
  package_inner_url := "http://10.1.0.9/download";
  package_outer_url := "http://203.0.113.9/download";
  outer_callback_url := None;
  port_config := {[ "io_port" := 1; "file_svr_port" := 2; "data_port" := 3 ]};
  get_agent_config := agent_config;
|}.

Definition identity (id : Z) : IdentityData := {|
  identity_bk_host_id := id;
  auth_type := PASSWORD;
  key := None;
  password := Some "secret";
  account := "root";
  port := 22;
|}.

Definition mk_host (id : Z) (ip : string) (role : NodeType) (os : string)
    (channel : option Z) : Host := {|
  bk_host_id := id;
  bk_cloud_id := 1;
  inner_ip := ip;
  login_ip := None;
  node_type := role;
  os_type := os;
  install_channel_id := channel;
  is_manual := false;
  ap_id := 1;
|}.

(** Three proxies of cloud region 1, two of them with the same inner IP. *)
Definition proxy_hosts : list Host :=
  [ mk_host 101 "10.0.0.1" PROXY "LINUX" None;
    mk_host 102 "10.0.0.1" PROXY "LINUX" None;
    mk_host 103 "10.0.0.2" PROXY "LINUX" None ].

Definition channel : InstallChannel :=
  (Some (mk_host 201 "10.9.0.1" PROXY "LINUX" None),
   {| channel_btfileserver := Some ["10.9.0.2"];
      channel_dataserver := Some ["10.9.0.3"];
      channel_taskserver := Some ["10.9.0.4"];
      agent_download_proxy := None;
      channel_proxy_address := None |}).

(** A record store in which the proxies of a host are [ps]. *)
Definition world (ps : list Host) : World := {|
  Host_ap := fun _ => access_point;
  Host_identity := fun h => identity (bk_host_id h);
  Host_proxies := fun _ => ps;
  Host_install_channel := fun _ => channel;
  AccessPoint_ap_id_obj_map := {[ 1 := access_point ]};
  IdentityData_filter := fun ids => map identity ids;
  aes_cipher_encrypt := fun payload => "enc(" +:+ payload +:+ ")";
  list_set := remove_dups;
|}.

(** Every candidate is alive and the first one is picked. *)
Definition call : Call := {|
  time_time := "1600000000.0";
  get_random_alive_proxy := fun _ ps =>
    match ps with
    | p :: _ => Some p
    | [] => None
    end;
|}.

Definition linux_agent : Host := mk_host 1 "10.0.1.1" AGENT "LINUX" None.
Definition windows_agent : Host := mk_host 2 "10.0.1.2" AGENT "WINDOWS" None.
Definition pagent : Host := mk_host 3 "10.0.1.3" PAGENT "LINUX" None.
Definition windows_pagent : Host := mk_host 4 "10.0.1.4" PAGENT "WINDOWS" None.
Definition channel_proxy : Host := mk_host 5 "10.0.1.5" PROXY "LINUX" (Some 7).
Definition plain_proxy : Host := mk_host 6 "10.0.1.6" PROXY "LINUX" None.

End Sample.

(** Further hosts of the sample deployment. *)
Module Cases.

(** A Linux [AGENT] that installs by hand through the install channel 7. *)
Definition manual_channel_agent : Host := {|
  bk_host_id := 7;
  bk_cloud_id := 1;
  inner_ip := "10.0.1.7";
  login_ip := Some "192.0.2.7";
  node_type := AGENT;
  os_type := "LINUX";
  install_channel_id := Some 7;
  is_manual := true;
  ap_id := 1;
|}.

(** An [AGENT] with an OS that the tables of the deployment lack. *)
Definition solaris_agent : Host := Sample.mk_host 8 "10.0.1.8" AGENT "SOLARIS" None.

(** The channel of the deployment with other flags. *)
Definition channel_with_flags : InstallChannel :=
  (Sample.channel.1,
   {| channel_btfileserver := Some ["10.9.0.2"];
      channel_dataserver := Some ["10.9.0.3"];
      channel_taskserver := Some ["10.9.0.4"];
      agent_download_proxy := Some false;
      channel_proxy_address := Some "10.9.0.9:17981" |}).

(** Every candidate is alive and the last one is picked. *)
Definition call_last : Call := {|
  time_time := "1600000000.0";
  get_random_alive_proxy := fun _ ps => last ps;
|}.

(** The record store of the deployment with sets that iterate in the
    opposite order. *)
Definition world_reversed (ps : list Host) : World := {|
  Host_ap := fun _ => Sample.access_point;
  Host_identity := fun h => Sample.identity (bk_host_id h);
  Host_proxies := fun _ => ps;
  Host_install_channel := fun _ => Sample.channel;
  AccessPoint_ap_id_obj_map := {[ 1 := Sample.access_point ]};
  IdentityData_filter := fun ids => map Sample.identity ids;
  aes_cipher_encrypt := fun payload => "enc(" +:+ payload +:+ ")";
  list_set := fun l => reverse (remove_dups l);
|}.

End Cases.

(** ** Properties *)

(** *** The result monad *)

Lemma bind_Ok {A B : Type} (m : result A) (k : A -> result B) (b : B) :
  m ≫= k = Ok b <-> exists a, m = Ok a /\ k a = Ok b.
Proof.
  destruct m as [a|e]; cbn; split.
  - intros H. exists a. done.
  - intros (a' & [= ->] & H). done.
  - discriminate.
  - intros (a' & [=] & _).
Qed.

Lemma bind_Raise {A B : Type} (m : result A) (k : A -> result B) (e : PyError) :
  m ≫= k = Raise e <-> m = Raise e \/ exists a, m = Ok a /\ k a = Raise e.
Proof.
  destruct m as [a|e']; cbn; split.
  - intros H. right. exists a. done.
  - intros [[=]|(a' & [= ->] & H)]. done.
  - intros [= ->]. by left.
  - intros [[= ->]|(a' & [=] & _)]. done.
Qed.

(** Destructs the calls that the hypothesis [H] binds, one after the other,
    and drops the cases in which one of them raised. *)
Ltac bind_ok H :=
  repeat
    (let a := fresh "a" in
     let E := fresh "E" in
     apply bind_Ok in H as (a & E & H)).

(** *** Regular expressions *)

Lemma append_cons c (s1 s2 : string) : String c s1 +:+ s2 = String c (s1 +:+ s2).
Proof. reflexivity. Qed.

Lemma append_nil_l (s : string) : "" +:+ s = s.
Proof. reflexivity. Qed.

Lemma append_eq_nil (s1 s2 : string) : s1 +:+ s2 = "" -> s1 = "" /\ s2 = "".
Proof. destruct s1; [ done | discriminate ]. Qed.

Lemma append_eq_cons (s1 s2 : string) c s :
  s1 +:+ s2 = String c s ->
  (s1 = "" /\ s2 = String c s) \/ exists s1', s1 = String c s1' /\ s = s1' +:+ s2.
Proof.
  destruct s1 as [|c1 s1]; intros H.
  - by left.
  - rewrite append_cons in H. injection H as -> <-. right. by exists s1.
Qed.

(** The matcher by derivatives accepts the words of the expression. *)
Lemma nullable_matches r : nullable r = true <-> matches r "".
Proof.
  split.
  - induction r as [| | | |r1 IH1 r2 IH2|r1 IH1 r2 IH2|r IH]; cbn; intros H;
      try discriminate.
    + constructor.
    + apply andb_true_iff in H as [H1 H2].
      apply (matches_seq r1 r2 "" ""); auto.
    + apply orb_true_iff in H as [H|H]; [ apply matches_alt_l | apply matches_alt_r ]; auto.
    + constructor.
  - remember "" as s eqn:Hs. intros H.
    induction H as [| | |r1 r2 s1 s2 _ IH1 _ IH2|r1 r2 s _ IH|r1 r2 s _ IH| |]; cbn;
      try discriminate; try done.
    + apply append_eq_nil in Hs as [-> ->]. by rewrite IH1, IH2.
    + by rewrite IH.
    + rewrite IH by done. apply orb_true_r.
Qed.

Lemma deriv_matches c r : forall s, matches (deriv c r) s <-> matches r (String c s).
Proof.
  intros s. split.
  - revert s.
    induction r as [| |c'| |r1 IH1 r2 IH2|r1 IH1 r2 IH2|r IH]; cbn [deriv]; intros s H.
    + inversion H.
    + inversion H.
    + destruct (Ascii.eqb_spec c c') as [->|]; inversion H; subst. constructor.
    + destruct (Ascii.eqb_spec c newline) as [|Hne]; inversion H; subst. by constructor.
    + destruct (nullable r1) eqn:Hn.
      * inversion H as [| | | | ? ? ? H'| ? ? ? H'| |]; subst.
        -- inversion H' as [| | |? ? s1 s2 H1 H2| | | |]; subst.
           apply (matches_seq r1 r2 (String c s1) s2); auto.
        -- apply (matches_seq r1 r2 "" (String c s)); [ by apply nullable_matches | auto ].
      * inversion H as [| | |? ? s1 s2 H1 H2| | | |]; subst.
        apply (matches_seq r1 r2 (String c s1) s2); auto.
    + inversion H; subst; [ apply matches_alt_l | apply matches_alt_r ]; auto.
    + inversion H as [| | |? ? s1 s2 H1 H2| | | |]; subst.
      apply (matches_star_app r (String c s1) s2); auto.
  - remember (String c s) as cs eqn:Hcs. intros H. revert s Hcs.
    induction H as [|c'|c' Hc'|r1 r2 s1 s2 H1 IH1 H2 IH2|r1 r2 s' _ IH|r1 r2 s' _ IH
                   | |r s1 s2 H1 IH1 H2 IH2]; intros s Hcs; cbn [deriv].
    + discriminate.
    + injection Hcs as -> <-. rewrite Ascii.eqb_refl. constructor.
    + injection Hcs as -> <-.
      destruct (Ascii.eqb_spec c newline); [ done | constructor ].
    + apply append_eq_cons in Hcs as [[-> ->] | (s1' & -> & ->)].
      * apply nullable_matches in H1. rewrite H1. apply matches_alt_r. by apply IH2.
      * assert (matches (RSeq (deriv c r1) r2) (s1' +:+ s2)) as Hseq.
        { constructor; [ by apply IH1 | done ]. }
        destruct (nullable r1); [ by apply matches_alt_l | done ].
    + apply matches_alt_l. by apply IH.
    + apply matches_alt_r. by apply IH.
    + discriminate.
    + apply append_eq_cons in Hcs as [[-> ->] | (s1' & -> & ->)].
      * by apply IH2.
      * constructor; [ by apply IH1 | done ].
Qed.

Lemma fullmatch_matches r s : fullmatch r s = true <-> matches r s.
Proof.
  revert r. induction s as [|c s IH]; intros r; cbn.
  - apply nullable_matches.
  - rewrite IH. apply deriv_matches.
Qed.

Lemma matches_chr_iff c s : matches (RChr c) s <-> s = String c "".
Proof. split; [ by inversion 1 | intros ->; constructor ]. Qed.

Lemma matches_seq_iff r1 r2 s :
  matches (RSeq r1 r2) s <-> exists s1 s2, s = s1 +:+ s2 /\ matches r1 s1 /\ matches r2 s2.
Proof.
  split.
  - inversion 1 as [| | |? ? s1 s2 H1 H2| | | |]; subst. by exists s1, s2.
  - intros (s1 & s2 & -> & H1 & H2). by constructor.
Qed.

Lemma matches_opt_iff r s : matches (ROpt r) s <-> matches r s \/ s = "".
Proof.
  unfold ROpt. split.
  - inversion 1 as [| | | |? ? ? H'|? ? ? H'| |]; subst; [ by left | right; by inversion H' ].
  - intros [H | ->]; [ by apply matches_alt_l | apply matches_alt_r; constructor ].
Qed.

Lemma matches_lit_iff l s : matches (RLit l) s <-> s = l.
Proof.
  revert s. induction l as [|c l IH]; intros s; cbn [RLit].
  - split; [ by inversion 1 | intros ->; constructor ].
  - rewrite matches_seq_iff. split.
    + intros (s1 & s2 & -> & H1 & H2). apply matches_chr_iff in H1 as ->.
      apply IH in H2 as ->. reflexivity.
    + intros ->. exists (String c ""), l. split; [ done | ].
      split; [ constructor | by apply IH ].
Qed.

Lemma matches_star_dot s : matches (RStar RDot) s <-> no_newline s = true.
Proof.
  split.
  - remember (RStar RDot) as r eqn:Hr. intros H.
    induction H as [| | | | | | |r s1 s2 H1 _ H2 IH2]; try discriminate; [ done | ].
    injection Hr as ->. inversion H1 as [| |c Hc| | | | |]; subst.
    rewrite append_cons, append_nil_l. cbn [no_newline]. rewrite IH2 by done.
    by destruct (Ascii.eqb_spec c newline).
  - induction s as [|c s IH]; cbn [no_newline]; intros H.
    + constructor.
    + apply andb_true_iff in H as [Hc Hs].
      apply (matches_star_app RDot (String c "") s); [ | by apply IH ].
      constructor. intros ->. by rewrite Ascii.eqb_refl in Hc.
Qed.

Lemma matches_plus_dot s : matches (RPlus RDot) s <-> s <> "" /\ no_newline s = true.
Proof.
  unfold RPlus. rewrite matches_seq_iff. split.
  - intros (s1 & s2 & -> & H1 & H2). inversion H1 as [| |c Hc| | | | |]; subst.
    split; [ done | ]. apply matches_star_dot.
    by apply (matches_star_app RDot (String c "") s2).
  - intros [Hne H]. destruct s as [|c s]; [ done | ].
    cbn [no_newline] in H. apply andb_true_iff in H as [Hc Hs].
    exists (String c ""), s. split; [ done | ]. split; [ | by apply matches_star_dot ].
    constructor. intros ->. by rewrite Ascii.eqb_refl in Hc.
Qed.

(** X2: the pattern of [check_run_commands] accepts exactly the commands
    [-r http://<url>/backend] and [-r https://<url>/backend] with a
    non-empty [<url>] without a newline, and the same followed by one
    newline. *)
Lemma re_match_callback_iff command :
  re_match_callback command = true <->
  exists tls url nl,
    command = "-r http" +:+ tls +:+ "://" +:+ url +:+ "/backend" +:+ nl /\
    (tls = "" \/ tls = "s") /\
    url <> "" /\ no_newline url = true /\
    (nl = "" \/ nl = String newline "").
Proof.
  unfold re_match_callback, callback_pattern. rewrite fullmatch_matches.
  rewrite matches_seq_iff. setoid_rewrite matches_lit_iff.
  setoid_rewrite matches_seq_iff. setoid_rewrite matches_opt_iff.
  setoid_rewrite matches_seq_iff. setoid_rewrite matches_lit_iff.
  setoid_rewrite matches_seq_iff. setoid_rewrite matches_plus_dot.
  setoid_rewrite matches_seq_iff. setoid_rewrite matches_lit_iff.
  setoid_rewrite matches_opt_iff. setoid_rewrite matches_chr_iff.
  split.
  - intros (? & ? & -> & -> & tls & ? & -> & Htls & ? & ? & -> & -> & url & ? & -> &
            [Hne Hurl] & ? & nl & -> & -> & Hnl).
    exists tls, url, nl. split; [ done | ].
    split; [ destruct Htls; auto | ]. split; [ done | ]. split; [ done | ].
    destruct Hnl; auto.
  - intros (tls & url & nl & -> & Htls & Hne & Hurl & Hnl).
    eexists _, _. split; [ reflexivity | ]. split; [ reflexivity | ].
    exists tls. eexists. split; [ reflexivity | ].
    split; [ destruct Htls; auto | ].
    eexists _, _. split; [ reflexivity | ]. split; [ reflexivity | ].
    exists url. eexists. split; [ reflexivity | ]. split; [ done | ].
    eexists _, nl. split; [ reflexivity | ]. split; [ reflexivity | ].
    destruct Hnl; auto.
Qed.

(** *** Script selection *)

Section ChooseScriptFile.

Variable constants : Constants.

Lemma choose_script_file_proxy (h : Host) :
  node_type h = PROXY -> choose_script_file constants h = Ok "setup_proxy.sh".
Proof. intros Hp. unfold choose_script_file. by rewrite decide_True. Qed.

Lemma choose_script_file_pagent (h : Host) :
  node_type h <> PROXY ->
  node_type h = PAGENT \/ has_install_channel h = true ->
  choose_script_file constants h = Ok (SETUP_PAGENT_PY constants).
Proof.
  intros Hp Hc. unfold choose_script_file. rewrite decide_False by done.
  destruct Hc as [-> | ->]; [ | done ].
  by rewrite orb_true_r.
Qed.

Lemma choose_script_file_os (h : Host) :
  node_type h = AGENT -> has_install_channel h = false ->
  choose_script_file constants h = getitem (SCRIPT_FILE_NAME_MAP constants !! os_type h).
Proof.
  intros Ha Hc. unfold choose_script_file. rewrite Ha, Hc.
  rewrite decide_False by done. done.
Qed.

End ChooseScriptFile.

(** *** The shell of an OS *)

Section FormatRunCmd.

Variable constants : Constants.

Lemma format_run_cmd_windows (os_type run_cmd : string) :
  lower os_type = OS_WINDOWS constants -> run_cmd <> "" ->
  format_run_cmd_by_os_type constants os_type (Some run_cmd) = Ok run_cmd.
Proof.
  intros Hw Hc. unfold format_run_cmd_by_os_type.
  rewrite bool_decide_eq_true_2 by done.
  destruct run_cmd; [ by destruct Hc | done ].
Qed.

(** The shell that [format_run_cmd_by_os_type] selects, once both table
    lookups have succeeded. *)
Lemma format_run_cmd_shell (os_type suffix aix : string) (run_cmd : option string) :
  SUFFIX_MAP constants !! lower os_type = Some suffix ->
  SUFFIX_MAP constants !! OS_AIX constants = Some aix ->
  (lower os_type = OS_WINDOWS constants -> opt_str_truthy run_cmd = false) ->
  format_run_cmd_by_os_type constants os_type run_cmd =
    let shell := if bool_decide (suffix = aix) then aix else "bash" in
    Ok (if opt_str_truthy run_cmd
        then "nohup " +:+ shell +:+ " " +:+ fmt_opt_str run_cmd +:+ " &"
        else shell).
Proof.
  intros Hs Ha Hw. unfold format_run_cmd_by_os_type. rewrite Hs, Ha. cbn.
  assert (bool_decide (lower os_type = OS_WINDOWS constants) && opt_str_truthy run_cmd
          = false) as ->.
  { case_bool_decide; [ by rewrite Hw | done ]. }
  case_bool_decide; case_bool_decide; subst; done.
Qed.

End FormatRunCmd.

(** *** The check of the callback URL *)

Lemma check_run_commands_skip (command : string) (l : list string) :
  startswith "-r" command = false ->
  check_run_commands (command :: l) = check_run_commands l.
Proof. intros H. cbn [check_run_commands]. by rewrite H. Qed.

Lemma check_run_commands_callback (command : string) (l : list string) :
  startswith "-r" command = true ->
  check_run_commands (command :: l) =
    if re_match_callback command then check_run_commands l else Raise GenCommandsError.
Proof.
  intros H. cbn [check_run_commands]. rewrite H.
  by destruct (re_match_callback command).
Qed.

(** Of the parameters that [gen_commands] checks, only the callback URL
    starts with [-r]. *)
Lemma check_run_commands_base (pipeline_id callback_url package_url token : string)
    (port_config : gmap string Z) (bt_file_servers data_servers task_servers : string) :
  check_run_commands
    (base_run_cmd_params pipeline_id callback_url package_url token port_config
       bt_file_servers data_servers task_servers)
  = if re_match_callback ("-r " +:+ callback_url) then Ok () else Raise GenCommandsError.
Proof.
  unfold base_run_cmd_params.
  rewrite check_run_commands_skip by reflexivity.
  rewrite check_run_commands_callback by reflexivity.
  destruct (re_match_callback _); [ | done ].
  repeat rewrite check_run_commands_skip by reflexivity.
  done.
Qed.

(** *** Topology resolution *)

Section FetchGseServers.

Variable settings : Settings.
Variable world : World.

Lemma fetch_gse_servers_jump_server call host host_ap proxies install_channel
    jump bt d0 data task pkg cb :
  fetch_gse_servers settings world call host host_ap proxies install_channel
    = Ok (jump, bt, d0, data, task, pkg, cb) ->
  is_Some jump <-> has_install_channel host = true \/ node_type host = PAGENT.
Proof.
  unfold fetch_gse_servers. destruct (has_install_channel host) eqn:Hc.
  - destruct install_channel as [j us]. intros H. bind_ok H.
    destruct j as [j|]; [ | discriminate ].
    injection H as <- _ _ _ _ _ _. split; eauto.
  - destruct (node_type host) eqn:Hn; intros H.
    + injection H as <- _ _ _ _ _ _. split; [ by intros [? ?] | by intros [?|?] ].
    + injection H as <- _ _ _ _ _ _. split; [ by intros [? ?] | by intros [?|?] ].
    + bind_ok H. injection H as <- _ _ _ _ _ _. split; eauto.
Qed.

Lemma fetch_gse_servers_slots call host host_ap proxies install_channel
    jump bt d0 data task pkg cb :
  fetch_gse_servers settings world call host host_ap proxies install_channel
    = Ok (jump, bt, d0, data, task, pkg, cb) ->
  d0 = data /\
  resolved_data_servers world host host_ap proxies install_channel = Ok data /\
  resolved_task_servers world host host_ap proxies install_channel = Ok task.
Proof.
  unfold fetch_gse_servers, resolved_data_servers, resolved_task_servers.
  destruct (has_install_channel host) eqn:Hc.
  - destruct install_channel as [j us]. intros H. bind_ok H. cbn [snd].
    injection H as _ _ <- <- <- _ _. rewrite E0, E1. done.
  - destruct (node_type host) eqn:Hn; intros H; bind_ok H;
      injection H as _ _ <- <- <- _ _; done.
Qed.

End FetchGseServers.

(** *** The two branches of the command builder *)

Section Branches.

Variable settings : Settings.
Variable constants : Constants.
Variable world : World.

(** The relay branch: no Windows commands, the run command is the joined
    parameter list, the jump server is there, and the parameters are the ones
    passed in, after the script's own path for a manual install, followed by
    [-L] and twelve parameters of the target host that end with its shell. *)
Lemma relay_commands_Ok host is_uninstall identity_data host_ap jump agent_config
    package_url script params dest win params' run dl :
  relay_commands settings constants world host is_uninstall identity_data host_ap jump
    agent_config package_url script params = Ok (dest, win, params', run, dl) ->
  win = [] /\ run = join " " params' /\ is_Some jump /\
  exists shell pre mid post,
    format_run_cmd_by_os_type constants (os_type host) None = Ok shell /\
    pre = (if is_manual host then [dest +:+ script +:+ " "] else []) /\
    List.length mid = 12%nat /\
    params' = pre ++ params ++ mid ++ ("-HS '" +:+ shell +:+ "'") :: post.
Proof.
  unfold relay_commands. intros H. bind_ok H.
  destruct jump as [j|]; [ | discriminate ].
  injection H as <- <- <- <- _.
  split; [ done | ]. split; [ done | ]. split; [ by eexists | ].
  destruct (has_install_channel host);
    [ destruct (Host_install_channel world host) as [? us];
      destruct (default true (agent_download_proxy us));
      destruct (opt_str_truthy (channel_proxy_address us)) | ];
    destruct (is_manual host);
    eexists a0, _, ["-L " +:+ DOWNLOAD_PATH settings; _; _; _; _; _; _; _; _; _; _; _], _;
    (split; [ done | ]); (split; [ reflexivity | ]); (split; [ done | ]);
    repeat first [ rewrite <- app_assoc | progress cbn [app] ]; reflexivity.
Qed.

(** The direct branch: the run command is the script's invocation wrapped
    for the OS, six parameters follow the ones passed in, and the Windows
    commands are there for Windows only. *)
Lemma direct_commands_Ok host is_uninstall host_ap agent_config package_url script
    dest0 params dest win params' run dl :
  direct_commands constants host is_uninstall host_ap agent_config package_url script
    dest0 params = Ok (dest, win, params', run, dl) ->
  dest = dest0 /\
  (exists post, List.length post = 6%nat /\ params' = params ++ post) /\
  format_run_cmd_by_os_type constants (os_type host)
    (Some (dest +:+ script +:+ " " +:+ join " " params')) = Ok run /\
  win =
    if bool_decide (os_type host = OsType_WINDOWS constants)
    then [ "del /q /s /f " +:+ dest +:+ script +:+ " " +:+ dest +:+ GSECTL_BAT constants;
           dest +:+ "curl.exe " +:+ package_inner_url host_ap +:+ "/" +:+ script
             +:+ " -o " +:+ dest +:+ script +:+ " -sSf";
           run ]
    else [].
Proof.
  unfold direct_commands. intros H. bind_ok H.
  injection H as <- <- <- <- _.
  split; [ done | ].
  split; [ eexists; split; [ | reflexivity ]; reflexivity | ].
  split; [ done | ]. by case_bool_decide.
Qed.

End Branches.

(** *** The steps of a successful call of [gen_commands] *)

Section GenCommands.

Variable settings : Settings.
Variable constants : Constants.
Variable world : World.

Lemma gen_commands_Ok call host pipeline_id is_uninstall identity_data host_ap proxies
    install_channel plan :
  gen_commands settings constants world call host pipeline_id is_uninstall identity_data
    host_ap proxies install_channel = Ok plan <->
  exists params,
    gen_commands_params settings constants world call host pipeline_id is_uninstall
      identity_data host_ap proxies install_channel = Ok (plan, params).
Proof.
  unfold gen_commands. rewrite bind_Ok. split.
  - intros ([p params] & E & [= ->]). by exists params.
  - intros [params E]. by exists (plan, params).
Qed.

Lemma gen_commands_params_Ok call h pipeline_id is_uninstall identity hap ps channel
    plan params :
  gen_commands_params settings constants world call h pipeline_id is_uninstall
    identity hap ps channel = Ok (plan, params) ->
  let host_ap := default (Host_ap world h) hap in
  let identity := default (Host_identity world h) identity in
  let ps := list_or ps (Host_proxies world h) in
  let install_channel := default (Host_install_channel world h) channel in
  exists bt d0 data task pkg cb agent_config dl,
    let base :=
      base_run_cmd_params pipeline_id cb pkg
        (aes_cipher_encrypt world (token_payload call h pipeline_id))
        (port_config host_ap) bt data task in
    fetch_gse_servers settings world call h host_ap ps install_channel
      = Ok (jump_server plan, bt, d0, data, task, pkg, cb) /\
    get_agent_config host_ap (os_type h) = Some agent_config /\
    re_match_callback ("-r " +:+ cb) = true /\
    choose_script_file constants h = Ok (script_file_name plan) /\
    (if bool_decide (script_file_name plan = SETUP_PAGENT_PY constants)
     then relay_commands settings constants world h is_uninstall identity
            host_ap (jump_server plan) agent_config pkg (script_file_name plan) base
     else direct_commands constants h is_uninstall host_ap agent_config pkg
            (script_file_name plan)
            (suffix_slash constants (lower (os_type h)) (temp_path agent_config)) base)
      = Ok (dest_dir plan, win_commands plan, params, run_cmd plan, dl) /\
    upstream_nodes plan = list_set world (chars task) /\
    host plan = h /\ ap plan = host_ap /\ identity_data plan = identity /\
    proxies plan = ps.
Proof.
  unfold gen_commands_params. intros H.
  apply bind_Ok in H as ([[[[[[jump bt] d0] data] task] pkg] cb] & Efetch & H).
  apply bind_Ok in H as (agent_config & Econfig & H).
  apply bind_Ok in H as ([] & Echeck & H).
  apply bind_Ok in H as (script & Escript & H).
  apply bind_Ok in H as ([[[[dest win] params'] run] dl] & Ebranch & H).
  injection H as <- <-. cbn.
  exists bt, d0, data, task, pkg, cb, agent_config, dl.
  rewrite check_run_commands_base in Echeck.
  destruct (get_agent_config _ _); [ | discriminate ].
  destruct (re_match_callback _); [ | discriminate ].
  injection Econfig as ->. done.
Qed.

End GenCommands.

(** *** Properties of the plan *)

Section Plan.

Variable settings : Settings.
Variable constants : Constants.
Variable world : World.

(** C6: in every generated plan the jump server is there if and only if the
    host has an install channel or is a [PAGENT]; the plan of an [AGENT] or
    a [PROXY] without an install channel has none. *)
Theorem jump_server_iff_channel_or_pagent call h pipeline_id is_uninstall identity hap ps
    channel plan :
  gen_commands settings constants world call h pipeline_id is_uninstall identity hap ps
    channel = Ok plan ->
  jump_server plan <> None <-> has_install_channel h = true \/ node_type h = PAGENT.
Proof.
  intros H. apply gen_commands_Ok in H as [params H].
  apply gen_commands_params_Ok in H as (bt & d0 & data & task & pkg & cb & ac & dl & H).
  destruct H as (Hfetch & _).
  apply fetch_gse_servers_jump_server in Hfetch.
  rewrite <- Hfetch. apply not_eq_None_Some.
Qed.

(** C9: in the direct branch a Windows host gets exactly three Windows
    commands, in this order: the removal of the previous script and of the
    batch file, the download of the script with [curl.exe], the run command.
    A host that is not a Windows host gets none. *)
Theorem win_commands_three_or_none call h pipeline_id is_uninstall identity hap ps
    channel plan :
  gen_commands settings constants world call h pipeline_id is_uninstall identity hap ps
    channel = Ok plan ->
  (script_file_name plan <> SETUP_PAGENT_PY constants ->
   os_type h = OsType_WINDOWS constants ->
   win_commands plan =
     [ "del /q /s /f " +:+ dest_dir plan +:+ script_file_name plan +:+ " "
         +:+ dest_dir plan +:+ GSECTL_BAT constants;
       dest_dir plan +:+ "curl.exe " +:+ package_inner_url (ap plan) +:+ "/"
         +:+ script_file_name plan +:+ " -o " +:+ dest_dir plan
         +:+ script_file_name plan +:+ " -sSf";
       run_cmd plan ]) /\
  (os_type h <> OsType_WINDOWS constants -> win_commands plan = []).
Proof.
  intros H. apply gen_commands_Ok in H as [params H].
  apply gen_commands_params_Ok in H as (bt & d0 & data & task & pkg & cb & ac & dl & H).
  destruct H as (_ & _ & _ & _ & Hbranch & _ & _ & Hap & _).
  case_bool_decide as Hscript.
  - apply relay_commands_Ok in Hbranch as (-> & _). done.
  - apply direct_commands_Ok in Hbranch as (_ & _ & _ & ->). rewrite Hap.
    split; intros; [ by rewrite bool_decide_eq_true_2 | by rewrite bool_decide_eq_false_2 ].
Qed.

(** C5: the slot that [fetch_gse_servers] returns twice and [gen_commands]
    unpacks twice does not mix the pools up: in every branch the [-a]
    parameter carries the resolved data servers and the [-k] parameter the
    resolved task servers.  They are the parameters 13 and 14 of the list,
    one later when the script's own path leads the list; the run command is
    built from that list. *)
Theorem data_and_task_parameters call h pipeline_id is_uninstall identity hap ps channel
    plan params :
  gen_commands_params settings constants world call h pipeline_id is_uninstall identity
    hap ps channel = Ok (plan, params) ->
  exists data task,
    resolved_data_servers world h (ap plan) (proxies plan)
      (default (Host_install_channel world h) channel) = Ok data /\
    resolved_task_servers world h (ap plan) (proxies plan)
      (default (Host_install_channel world h) channel) = Ok task /\
    let relay := bool_decide (script_file_name plan = SETUP_PAGENT_PY constants) in
    let off := if relay && is_manual h then 1%nat else 0%nat in
    params !! (off + 13)%nat = Some ("-a " +:+ dq +:+ data +:+ dq) /\
    params !! (off + 14)%nat = Some ("-k " +:+ dq +:+ task +:+ dq) /\
    if relay
    then run_cmd plan = join " " params
    else format_run_cmd_by_os_type constants (os_type h)
           (Some (dest_dir plan +:+ script_file_name plan +:+ " " +:+ join " " params))
         = Ok (run_cmd plan).
Proof.
  intros H.
  apply gen_commands_params_Ok in H as (bt & d0 & data & task & pkg & cb & ac & dl & H).
  destruct H as (Hfetch & _ & _ & _ & Hbranch & _ & _ & Hap & _ & Hps).
  apply fetch_gse_servers_slots in Hfetch as (_ & Hdata & Htask).
  rewrite Hap, Hps. exists data, task. split; [ done | ]. split; [ done | ].
  cbn zeta. case_bool_decide as Hscript.
  - apply relay_commands_Ok in Hbranch
      as (_ & Hrun & _ & shell & pre & mid & post & _ & Hpre & _ & ->).
    split; [ | split; [ | done ] ]; rewrite Hpre; destruct (is_manual h); reflexivity.
  - apply direct_commands_Ok in Hbranch as (_ & (post & _ & ->) & Hrun & _).
    split; [ reflexivity | ]. split; [ reflexivity | done ].
Qed.

(** X1: every upstream node of a generated plan is a single character: the
    plan's list is the set of the characters of the joined task servers. *)
Lemma upstream_nodes_characters call h pipeline_id is_uninstall identity hap ps channel
    plan :
  list_set_ok (list_set world) ->
  gen_commands settings constants world call h pipeline_id is_uninstall identity hap ps
    channel = Ok plan ->
  forall node, node ∈ upstream_nodes plan -> String.length node = 1%nat.
Proof.
  intros Hset H. apply gen_commands_Ok in H as [params H].
  apply gen_commands_params_Ok in H as (bt & d0 & data & task & pkg & cb & ac & dl & H).
  destruct H as (_ & _ & _ & _ & _ & -> & _).
  intros node Hnode. destruct (Hset (chars task)) as [_ Hin].
  apply Hin in Hnode. clear -Hnode.
  induction task as [|c task IH]; cbn in Hnode.
  - by apply elem_of_nil in Hnode.
  - apply elem_of_cons in Hnode as [-> | Hnode]; [ done | by apply IH ].
Qed.

End Plan.

(** *** Which calls raise what *)

Lemma getitem_Raise {A : Type} (o : option A) (e : PyError) :
  getitem o = Raise e -> e = KeyError.
Proof. destruct o; cbn; congruence. Qed.

Lemma getattr_Raise {A B : Type} (o : option A) (f : A -> B) (e : PyError) :
  getattr o f = Raise e -> e = AttributeError.
Proof. destruct o; cbn; congruence. Qed.

Lemma alive_proxy_Raise {A : Type} (o : option A) (e : PyError) :
  alive_proxy o = Raise e -> e = AliveProxyNotExistsError.
Proof. destruct o; cbn; congruence. Qed.

(** Splits a hypothesis [H] that says that a sequence of calls raised into
    the call that raised, and names the exception of a lookup. *)
Ltac bind_raise H :=
  repeat
    (let a := fresh "a" in
     let E := fresh "E" in
     apply bind_Raise in H as [H | (a & E & H)]);
  try discriminate H;
  try (apply getitem_Raise in H);
  try (apply getattr_Raise in H);
  try (apply alive_proxy_Raise in H).

Section Raises.

Variable settings : Settings.
Variable constants : Constants.
Variable world : World.

Lemma format_run_cmd_by_os_type_Raise os_type run_cmd e :
  format_run_cmd_by_os_type constants os_type run_cmd = Raise e -> e = KeyError.
Proof.
  unfold format_run_cmd_by_os_type. intros H.
  destruct (_ && _); [ discriminate | ]. bind_raise H; done.
Qed.

Lemma choose_script_file_Raise h e :
  choose_script_file constants h = Raise e -> e = KeyError.
Proof.
  unfold choose_script_file. intros H.
  destruct (decide _); [ discriminate | ].
  destruct (_ || _); [ discriminate | ]. by apply getitem_Raise in H.
Qed.

Lemma fetch_gse_servers_Raise call h host_ap ps channel e :
  fetch_gse_servers settings world call h host_ap ps channel = Raise e ->
  e <> GenCommandsError.
Proof.
  unfold fetch_gse_servers. intros H.
  destruct (has_install_channel h).
  - destruct channel as [j us]. bind_raise H; by subst.
  - destruct (node_type h); bind_raise H; by subst.
Qed.

Lemma relay_commands_Raise h is_uninstall identity host_ap jump agent_config package_url
    script params e :
  relay_commands settings constants world h is_uninstall identity host_ap jump
    agent_config package_url script params = Raise e ->
  e <> GenCommandsError.
Proof.
  unfold relay_commands. intros H. bind_raise H; try by subst.
  apply format_run_cmd_by_os_type_Raise in H. by subst.
Qed.

Lemma direct_commands_Raise h is_uninstall host_ap agent_config package_url script dest
    params e :
  direct_commands constants h is_uninstall host_ap agent_config package_url script dest
    params = Raise e ->
  e <> GenCommandsError.
Proof.
  unfold direct_commands. intros H. bind_raise H.
  apply format_run_cmd_by_os_type_Raise in H. by subst.
Qed.

(** C2: [gen_commands] raises [GenCommandsError] if and only if the
    callback URL that the topology resolves, as the parameter [-r], does not
    match [https?://.+/backend]; a call that raises returns no plan.
    [http://example.com/backend] passes, [http://example.com/other] and
    [ftp://example.com/backend] fail. *)
Theorem gen_commands_error_iff_callback_mismatch :
  (forall call h pipeline_id is_uninstall identity hap ps channel,
     gen_commands settings constants world call h pipeline_id is_uninstall identity hap
       ps channel = Raise GenCommandsError <->
     exists jump bt d0 data task pkg callback_url agent_config,
       fetch_gse_servers settings world call h (default (Host_ap world h) hap)
         (list_or ps (Host_proxies world h))
         (default (Host_install_channel world h) channel)
         = Ok (jump, bt, d0, data, task, pkg, callback_url) /\
       get_agent_config (default (Host_ap world h) hap) (os_type h) = Some agent_config /\
       re_match_callback ("-r " +:+ callback_url) = false) /\
  re_match_callback "-r http://example.com/backend" = true /\
  re_match_callback "-r http://example.com/other" = false /\
  re_match_callback "-r ftp://example.com/backend" = false.
Proof.
  split; [ | by vm_compute ].
  intros call h pipeline_id is_uninstall identity hap ps channel.
  unfold gen_commands, gen_commands_params. split.
  - intros H. apply bind_Raise in H as [H | ([plan params] & _ & [=])].
    apply bind_Raise in H as [H | ([[[[[[jump bt] d0] data] task] pkg] cb] & Efetch & H)].
    { by apply fetch_gse_servers_Raise in H. }
    apply bind_Raise in H as [H | (agent_config & Econfig & H)].
    { by apply getitem_Raise in H. }
    exists jump, bt, d0, data, task, pkg, cb, agent_config.
    split; [ done | ]. split.
    { destruct (get_agent_config _ (os_type h)) as [c|];
        [ by injection Econfig as -> | discriminate Econfig ]. }
    rewrite check_run_commands_base in H.
    destruct (re_match_callback _); [ exfalso | done ].
    apply bind_Raise in H as [[=] | ([] & _ & H)].
    apply bind_Raise in H as [H | (script & _ & H)].
    { by apply choose_script_file_Raise in H. }
    apply bind_Raise in H as [H | ([[[[? ?] ?] ?] ?] & _ & [=])].
    case_bool_decide.
    + by apply relay_commands_Raise in H.
    + by apply direct_commands_Raise in H.
  - intros (jump & bt & d0 & data & task & pkg & cb & agent_config & -> & -> & Hcb).
    cbn -[check_run_commands base_run_cmd_params].
    rewrite check_run_commands_base, Hcb. done.
Qed.

End Raises.

(** *** The order of a set *)

Lemma remove_dups_list_set_ok : list_set_ok remove_dups.
Proof.
  intros l. split; [ apply NoDup_remove_dups | intros x; apply elem_of_remove_dups ].
Qed.

Lemma reverse_remove_dups_list_set_ok :
  list_set_ok (fun l => reverse (remove_dups l)).
Proof.
  intros l. split.
  - rewrite reverse_Permutation. apply NoDup_remove_dups.
  - intros x. by rewrite elem_of_reverse, elem_of_remove_dups.
Qed.

(** *** Determinism *)

Lemma same_bind {A B : Type} (R : result B -> result B -> Prop) (m : result A)
    (k1 k2 : A -> result B) :
  (forall a, R (k1 a) (k2 a)) -> (forall e, R (Raise e) (Raise e)) ->
  R (m ≫= k1) (m ≫= k2).
Proof. intros Hk He. destruct m as [a|e]; [ apply Hk | apply He ]. Qed.

Section Determinism.

Variable settings : Settings.
Variable constants : Constants.
Variables w1 w2 : World.
Variables c1 c2 : Call.
Hypothesis Hsame : same_records w1 w2 c1 c2.

Lemma fetch_gse_servers_same h host_ap ps channel :
  picks_proxy h = false \/
  (get_random_alive_proxy c1 h ps = get_random_alive_proxy c2 h ps /\
   list_set w1 (map inner_ip ps) = list_set w2 (map inner_ip ps)) ->
  fetch_gse_servers settings w1 c1 h host_ap ps channel
  = fetch_gse_servers settings w2 c2 h host_ap ps channel.
Proof.
  unfold fetch_gse_servers, picks_proxy.
  destruct (has_install_channel h); [ done | ].
  destruct (node_type h); [ done | done | ].
  intros [Hfree | [Hpick Hset]].
  - by rewrite bool_decide_eq_true_2 in Hfree.
  - by rewrite Hpick, Hset.
Qed.

Lemma relay_commands_same h is_uninstall identity host_ap jump agent_config package_url
    script params :
  relay_commands settings constants w1 h is_uninstall identity host_ap jump agent_config
    package_url script params
  = relay_commands settings constants w2 h is_uninstall identity host_ap jump
      agent_config package_url script params.
Proof using Hsame.
  destruct Hsame as (_ & _ & _ & _ & _ & Hchannel).
  unfold relay_commands. by rewrite Hchannel.
Qed.

End Determinism.

Lemma list_set_ok_Permutation f1 f2 l :
  list_set_ok f1 -> list_set_ok f2 -> f1 l ≡ₚ f2 l.
Proof.
  intros H1 H2. destruct (H1 l) as [Hnodup1 Hin1], (H2 l) as [Hnodup2 Hin2].
  apply NoDup_Permutation; [ done | done | ].
  intros x. by rewrite Hin1, Hin2.
Qed.

(** C4, as the code has it: plan generation is deterministic up to the proxy
    that is picked at random and the order in which a set is iterated.  Two
    calls of [gen_commands] with the same arguments that read the same
    clock, get the same token and see the same records of the host end with
    the same exception, or with plans that agree in the script, the
    destination directory, the Windows commands, the jump server, the
    pre-commands, the run command and the records; the upstream nodes are
    the same characters, each call in its own set order.  For a [PAGENT]
    without install channel this holds when both calls pick the same proxy
    and iterate the set of proxy addresses in the same order; for every
    other host the pick and the set order do not matter. *)
Theorem gen_commands_same_up_to_pick_and_set_order settings constants w1 w2 c1 c2 h
    pipeline_id is_uninstall identity hap ps channel :
  same_records w1 w2 c1 c2 ->
  picks_proxy h = false \/
  (get_random_alive_proxy c1 h (list_or ps (Host_proxies w1 h))
   = get_random_alive_proxy c2 h (list_or ps (Host_proxies w1 h)) /\
   list_set w1 (map inner_ip (list_or ps (Host_proxies w1 h)))
   = list_set w2 (map inner_ip (list_or ps (Host_proxies w1 h)))) ->
  same_plan_but_set_order w1 w2
    (gen_commands settings constants w1 c1 h pipeline_id is_uninstall identity hap ps
       channel)
    (gen_commands settings constants w2 c2 h pipeline_id is_uninstall identity hap ps
       channel).
Proof.
  intros Hsame Hpick.
  pose proof Hsame as (Htime & Henc & Hap & Hid & Hps & Hchannel).
  unfold gen_commands.
  set (R := fun r1 r2 : result (InstallationTools * list string) =>
              same_plan_but_set_order w1 w2
                (r1 ≫= fun '(plan, _) => mret plan) (r2 ≫= fun '(plan, _) => mret plan)).
  enough (R (gen_commands_params settings constants w1 c1 h pipeline_id is_uninstall
               identity hap ps channel)
            (gen_commands_params settings constants w2 c2 h pipeline_id is_uninstall
               identity hap ps channel)) as H by exact H.
  assert (forall e, R (Raise e) (Raise e)) as HR by (intros e; reflexivity).
  unfold gen_commands_params, token_payload.
  rewrite <- (Hap h), <- (Hid h), <- (Hps h), <- (Hchannel h), <- Htime.
  rewrite <- (fetch_gse_servers_same settings w1 w2 c1 c2 h _ _ _ Hpick).
  apply same_bind; [ | exact HR ]. intros [[[[[[jump bt] d0] data] task] pkg] cb].
  apply same_bind; [ | exact HR ]. intros agent_config.
  rewrite <- Henc.
  apply same_bind; [ | exact HR ]. intros _.
  apply same_bind; [ | exact HR ]. intros script.
  rewrite <- (relay_commands_same settings constants w1 w2 c1 c2 Hsame).
  apply same_bind; [ | exact HR ]. intros [[[[dest win] params] run] dl].
  unfold R, same_plan_but_set_order. cbn [mbind result_bind mret result_ret].
  do 10 (split; [ reflexivity | ]). split.
  - by exists task.
  - apply list_set_ok_Permutation.
Qed.

Lemma gen_commands_same_up_to_pick_and_set_order_witness :
  is_ok
    (gen_commands Sample.settings Sample.constants (Sample.world Sample.proxy_hosts)
       Sample.call Sample.linux_agent "p1" false None None None None) = true /\
  same_plan_but_set_order (Sample.world Sample.proxy_hosts)
    (Cases.world_reversed Sample.proxy_hosts)
    (gen_commands Sample.settings Sample.constants (Sample.world Sample.proxy_hosts)
       Sample.call Sample.linux_agent "p1" false None None None None)
    (gen_commands Sample.settings Sample.constants
       (Cases.world_reversed Sample.proxy_hosts) Cases.call_last Sample.linux_agent "p1"
       false None None None None).
Proof.
  split; [ vm_compute; reflexivity | ].
  apply (gen_commands_same_up_to_pick_and_set_order Sample.settings Sample.constants
           (Sample.world Sample.proxy_hosts) (Cases.world_reversed Sample.proxy_hosts)
           Sample.call Cases.call_last Sample.linux_agent "p1" false None None None None).
  - repeat split.
  - left. reflexivity.
Defined.

(** C4, as the spec has it, fails for a [PAGENT] without install channel.
    With the same arguments, clock, token and records, a call that picks
    another proxy has another jump server and another run command; and a
    call whose set of proxy addresses iterates in another order has another
    run command. *)
Lemma plan_changes_with_proxy_pick_and_set_order :
  same_records (Sample.world Sample.proxy_hosts) (Sample.world Sample.proxy_hosts)
    Sample.call Cases.call_last /\
  same_records (Sample.world Sample.proxy_hosts)
    (Cases.world_reversed Sample.proxy_hosts) Sample.call Sample.call /\
  list_set_ok (list_set (Sample.world Sample.proxy_hosts)) /\
  list_set_ok (list_set (Cases.world_reversed Sample.proxy_hosts)) /\
  match
    gen_commands Sample.settings Sample.constants (Sample.world Sample.proxy_hosts)
      Sample.call Sample.pagent "p1" false None None None None,
    gen_commands Sample.settings Sample.constants (Sample.world Sample.proxy_hosts)
      Cases.call_last Sample.pagent "p1" false None None None None,
    gen_commands Sample.settings Sample.constants
      (Cases.world_reversed Sample.proxy_hosts) Sample.call Sample.pagent "p1" false
      None None None None
  with
  | Ok plan, Ok plan_pick, Ok plan_order =>
      inner_ip <$> jump_server plan = Some "10.0.0.1" /\
      inner_ip <$> jump_server plan_pick = Some "10.0.0.2" /\
      run_cmd plan <> run_cmd plan_pick /\
      jump_server plan_order = jump_server plan /\
      run_cmd plan <> run_cmd plan_order
  | _, _, _ => False
  end.
Proof.
  split; [ repeat split | ]. split; [ repeat split | ].
  split; [ apply remove_dups_list_set_ok | ].
  split; [ apply reverse_remove_dups_list_set_ok | ].
  set (r := gen_commands Sample.settings Sample.constants
              (Sample.world Sample.proxy_hosts) Sample.call Sample.pagent "p1" false
              None None None None).
  set (r_pick := gen_commands Sample.settings Sample.constants
                   (Sample.world Sample.proxy_hosts) Cases.call_last Sample.pagent "p1"
                   false None None None None).
  set (r_order := gen_commands Sample.settings Sample.constants
                    (Cases.world_reversed Sample.proxy_hosts) Sample.call Sample.pagent
                    "p1" false None None None None).
  pose (jump_of := fun x : result InstallationTools =>
                     match x with Ok plan => jump_server plan | Raise _ => None end).
  pose (run_of := fun x : result InstallationTools =>
                    match x with Ok plan => run_cmd plan | Raise _ => "" end).
  assert (is_ok r && is_ok r_pick && is_ok r_order = true) as Hok
    by (vm_compute; reflexivity).
  assert (inner_ip <$> jump_of r = Some "10.0.0.1") as Hjump
    by (vm_compute; reflexivity).
  assert (inner_ip <$> jump_of r_pick = Some "10.0.0.2") as Hjump_pick
    by (vm_compute; reflexivity).
  assert (jump_of r_order = jump_of r) as Hjump_order by (vm_compute; reflexivity).
  assert (String.eqb (run_of r) (run_of r_pick) = false) as Hrun_pick
    by (vm_compute; reflexivity).
  assert (String.eqb (run_of r) (run_of r_order) = false) as Hrun_order
    by (vm_compute; reflexivity).
  clearbody r r_pick r_order.
  destruct r as [plan|?], r_pick as [plan_pick|?], r_order as [plan_order|?];
    try discriminate Hok.
  split; [ exact Hjump | ]. split; [ exact Hjump_pick | ].
  split; [ by apply String.eqb_neq | ]. split; [ exact Hjump_order | ].
  by apply String.eqb_neq.
Qed.

(** *** Address families *)

(** C7, as the code has it: without an install channel, the three server
    strings of an [AGENT] are the comma-joins of the inner addresses of the
    access point's pools, and those of a [PROXY] are the comma-joins of the
    outer addresses.  (With an install channel the strings come from the
    channel, whatever the role.) *)
Theorem servers_by_role settings world call h host_ap ps channel :
  has_install_channel h = false ->
  (node_type h = AGENT ->
   fetch_gse_servers settings world call h host_ap ps channel =
     Ok (None,
         join "," (map server_inner_ip (btfileserver host_ap)),
         join "," (map server_inner_ip (dataserver host_ap)),
         join "," (map server_inner_ip (dataserver host_ap)),
         join "," (map server_inner_ip (taskserver host_ap)),
         package_inner_url host_ap,
         BKAPP_NODEMAN_CALLBACK_URL settings)) /\
  (node_type h = PROXY ->
   fetch_gse_servers settings world call h host_ap ps channel =
     Ok (None,
         join "," (map server_outer_ip (btfileserver host_ap)),
         join "," (map server_outer_ip (dataserver host_ap)),
         join "," (map server_outer_ip (dataserver host_ap)),
         join "," (map server_outer_ip (taskserver host_ap)),
         package_outer_url host_ap,
         str_or (outer_callback_url host_ap) (BKAPP_NODEMAN_OUTER_CALLBACK_URL settings))).
Proof.
  intros Hc. unfold fetch_gse_servers. rewrite Hc.
  split; intros ->; reflexivity.
Qed.

Lemma servers_by_role_witness :
  fetch_gse_servers Sample.settings (Sample.world Sample.proxy_hosts) Sample.call
    Sample.plain_proxy Sample.access_point Sample.proxy_hosts Sample.channel
  = Ok (None, "203.0.113.1", "203.0.113.2", "203.0.113.2", "203.0.113.3,203.0.113.4",
        "http://203.0.113.9/download", "http://outer.example.com/backend").
Proof.
  apply (servers_by_role Sample.settings (Sample.world Sample.proxy_hosts) Sample.call
           Sample.plain_proxy Sample.access_point Sample.proxy_hosts Sample.channel);
    reflexivity.
Defined.

(** C7 as stated fails for a [PROXY] with an install channel: its server
    strings are the channel's, and no outer address of the access point is in
    them. *)
Lemma proxy_with_channel_uses_channel_servers :
  node_type Sample.channel_proxy = PROXY /\
  fetch_gse_servers Sample.settings (Sample.world Sample.proxy_hosts) Sample.call
    Sample.channel_proxy Sample.access_point Sample.proxy_hosts Sample.channel
  = Ok (Sample.channel.1, "10.9.0.2", "10.9.0.3", "10.9.0.3", "10.9.0.4",
        "http://10.9.0.1:17980/", "http://outer.example.com/backend") /\
  join "," (map server_outer_ip (btfileserver Sample.access_point)) = "203.0.113.1" /\
  join "," (map server_outer_ip (dataserver Sample.access_point)) = "203.0.113.2" /\
  join "," (map server_outer_ip (taskserver Sample.access_point))
    = "203.0.113.3,203.0.113.4".
Proof. repeat split. Qed.

(** *** Script selection *)

(** C8, as the code has it: the script is a function of role, channel
    presence and OS alone.  A [PROXY] gets the proxy installer, with or
    without an install channel; a host that is not a [PROXY] and is a
    [PAGENT] or has an install channel gets the relay installer; an [AGENT]
    without an install channel gets what the table of scripts holds for its
    OS, and the lookup raises [KeyError] for an OS that the table lacks. *)
Theorem choose_script_file_cases constants h :
  (node_type h = PROXY -> choose_script_file constants h = Ok "setup_proxy.sh") /\
  (node_type h <> PROXY -> node_type h = PAGENT \/ has_install_channel h = true ->
   choose_script_file constants h = Ok (SETUP_PAGENT_PY constants)) /\
  (node_type h = AGENT -> has_install_channel h = false ->
   choose_script_file constants h
     = getitem (SCRIPT_FILE_NAME_MAP constants !! os_type h)) /\
  (forall h',
     node_type h' = node_type h ->
     has_install_channel h' = has_install_channel h ->
     os_type h' = os_type h ->
     choose_script_file constants h' = choose_script_file constants h).
Proof.
  split; [ apply choose_script_file_proxy | ].
  split; [ apply choose_script_file_pagent | ].
  split; [ apply choose_script_file_os | ].
  intros h' Hn Hc Ho. unfold choose_script_file. by rewrite Hn, Hc, Ho.
Qed.

(** C8 as stated fails for a [PROXY] with an install channel: it has a
    non-empty install channel and gets the proxy installer, not the relay
    installer. *)
Lemma proxy_with_channel_gets_proxy_script :
  has_install_channel Sample.channel_proxy = true /\
  choose_script_file Sample.constants Sample.channel_proxy = Ok "setup_proxy.sh" /\
  SETUP_PAGENT_PY Sample.constants = "setup_pagent.py".
Proof. repeat split. Qed.

(** *** The shell of the target host *)

(** C10: for an OS of the suffix table, [format_run_cmd_by_os_type] without
    a command returns the bare shell: the suffix of AIX for AIX and [bash]
    for every other OS, Windows too, and this is the [-HS] parameter of the
    relay branch.  With a non-empty command it returns the command as it is
    for Windows and [nohup <shell> <command> &] for every other OS. The
    table is taken to hold AIX, with a suffix that no other OS has. *)
Theorem shell_by_os_type constants os suffix aix :
  SUFFIX_MAP constants !! lower os = Some suffix ->
  SUFFIX_MAP constants !! OS_AIX constants = Some aix ->
  aix_suffix_unique constants ->
  let shell := if decide (lower os = OS_AIX constants) then aix else "bash" in
  format_run_cmd_by_os_type constants os None = Ok shell /\
  format_run_cmd_by_os_type constants os (Some "") = Ok shell /\
  (forall run_cmd, run_cmd <> "" ->
     format_run_cmd_by_os_type constants os (Some run_cmd) =
       Ok (if decide (lower os = OS_WINDOWS constants) then run_cmd
           else "nohup " +:+ shell +:+ " " +:+ run_cmd +:+ " &")) /\
  (forall settings world call h pipeline_id is_uninstall identity hap ps channel plan
          params,
     os_type h = os ->
     gen_commands_params settings constants world call h pipeline_id is_uninstall
       identity hap ps channel = Ok (plan, params) ->
     script_file_name plan = SETUP_PAGENT_PY constants ->
     ("-HS '" +:+ shell +:+ "'") ∈ params /\ run_cmd plan = join " " params).
Proof.
  intros Hs Ha Huniq shell.
  assert (bool_decide (suffix = aix) = bool_decide (lower os = OS_AIX constants))
    as Hdec.
  { apply bool_decide_ext. split.
    - intros ->. by apply (Huniq _ aix).
    - intros Haix. rewrite Haix, Ha in Hs. by injection Hs. }
  assert (forall run_cmd,
            (lower os = OS_WINDOWS constants -> opt_str_truthy run_cmd = false) ->
            format_run_cmd_by_os_type constants os run_cmd =
              Ok (if opt_str_truthy run_cmd
                  then "nohup " +:+ shell +:+ " " +:+ fmt_opt_str run_cmd +:+ " &"
                  else shell)) as Hshell.
  { intros run_cmd Hw. rewrite (format_run_cmd_shell _ _ suffix aix) by done.
    cbn zeta. rewrite Hdec. unfold shell. by case_bool_decide; case_decide. }
  split; [ by apply Hshell | ]. split; [ by apply Hshell | ]. split.
  - intros run_cmd Hcmd.
    destruct (decide (lower os = OS_WINDOWS constants)) as [Hw|Hw].
    + by apply format_run_cmd_windows.
    + rewrite Hshell by done. by destruct run_cmd.
  - intros settings world call h pipeline_id is_uninstall identity hap ps channel plan
      params Hos H Hscript.
    apply gen_commands_params_Ok in H as (bt & d0 & data & task & pkg & cb & ac & dl & H).
    destruct H as (_ & _ & _ & _ & Hbranch & _).
    rewrite bool_decide_eq_true_2 in Hbranch by done.
    apply relay_commands_Ok in Hbranch
      as (_ & Hrun & _ & shell' & pre & mid & post & Hfmt & _ & _ & ->).
    split; [ | done ].
    rewrite Hos, Hshell in Hfmt by done. injection Hfmt as <-.
    rewrite !elem_of_app. right. right. right. apply elem_of_cons. by left.
Qed.

Lemma sample_aix_suffix_unique : aix_suffix_unique Sample.constants.
Proof.
  intros os suffix Hos Haix. vm_compute in Haix. injection Haix as <-.
  destruct (decide (os = "aix")) as [|Hne]; [ done | exfalso ].
  destruct (decide (os = "linux")) as [->|]; [ discriminate Hos | ].
  destruct (decide (os = "windows")) as [->|]; [ discriminate Hos | ].
  unfold Sample.constants in Hos. cbn [SUFFIX_MAP] in Hos.
  rewrite !lookup_insert_ne in Hos by done.
  by rewrite lookup_singleton_ne in Hos.
Qed.

Lemma shell_by_os_type_witness :
  format_run_cmd_by_os_type Sample.constants "WINDOWS" None = Ok "bash" /\
  format_run_cmd_by_os_type Sample.constants "AIX" None = Ok "ksh" /\
  match
    gen_commands_params Sample.settings Sample.constants
      (Sample.world Sample.proxy_hosts) Sample.call Sample.windows_pagent "p1" false
      None None None None
  with
  | Ok (plan, params) => "-HS 'bash'" ∈ params /\ run_cmd plan = join " " params
  | Raise _ => False
  end.
Proof.
  split; [ | split ].
  - apply (shell_by_os_type Sample.constants "WINDOWS" "bat" "ksh");
      [ reflexivity | reflexivity | apply sample_aix_suffix_unique ].
  - apply (shell_by_os_type Sample.constants "AIX" "ksh" "ksh");
      [ reflexivity | reflexivity | apply sample_aix_suffix_unique ].
  - assert (exists plan params,
              gen_commands_params Sample.settings Sample.constants
                (Sample.world Sample.proxy_hosts) Sample.call Sample.windows_pagent "p1"
                false None None None None = Ok (plan, params) /\
              script_file_name plan = "setup_pagent.py") as (plan & params & E & Hscript)
      by (eexists _, _; split; vm_compute; reflexivity).
    rewrite E.
    destruct (shell_by_os_type Sample.constants "WINDOWS" "bat" "ksh" eq_refl eq_refl
                sample_aix_suffix_unique) as (_ & _ & _ & Hrelay).
    apply (Hrelay Sample.settings (Sample.world Sample.proxy_hosts) Sample.call
             Sample.windows_pagent "p1" false None None None None plan params eq_refl E
             Hscript).
Defined.

(** *** The plans of the sample installation *)

Lemma jump_server_iff_channel_or_pagent_witness :
  match
    gen_commands Sample.settings Sample.constants (Sample.world Sample.proxy_hosts)
      Sample.call Sample.pagent "p1" false None None None None
  with
  | Ok plan =>
      jump_server plan <> None <->
      has_install_channel Sample.pagent = true \/ node_type Sample.pagent = PAGENT
  | Raise _ => False
  end.
Proof.
  assert (exists plan,
            gen_commands Sample.settings Sample.constants
              (Sample.world Sample.proxy_hosts) Sample.call Sample.pagent "p1" false
              None None None None = Ok plan) as [plan E]
    by (eexists; vm_compute; reflexivity).
  rewrite E.
  apply (jump_server_iff_channel_or_pagent Sample.settings Sample.constants
           (Sample.world Sample.proxy_hosts) Sample.call Sample.pagent "p1" false
           None None None None plan E).
Defined.

Lemma win_commands_three_or_none_witness :
  match
    gen_commands Sample.settings Sample.constants (Sample.world Sample.proxy_hosts)
      Sample.call Sample.windows_agent "p1" false None None None None
  with
  | Ok plan =>
      win_commands plan =
        [ "del /q /s /f " +:+ dest_dir plan +:+ script_file_name plan +:+ " "
            +:+ dest_dir plan +:+ "gsectl.bat";
          dest_dir plan +:+ "curl.exe " +:+ package_inner_url (ap plan) +:+ "/"
            +:+ script_file_name plan +:+ " -o " +:+ dest_dir plan
            +:+ script_file_name plan +:+ " -sSf";
          run_cmd plan ]
  | Raise _ => False
  end.
Proof.
  assert (exists plan,
            gen_commands Sample.settings Sample.constants
              (Sample.world Sample.proxy_hosts) Sample.call Sample.windows_agent "p1"
              false None None None None = Ok plan /\
            script_file_name plan = "setup_agent.bat") as (plan & E & Hscript)
    by (eexists; split; vm_compute; reflexivity).
  rewrite E.
  apply (win_commands_three_or_none Sample.settings Sample.constants
           (Sample.world Sample.proxy_hosts) Sample.call Sample.windows_agent "p1" false
           None None None None plan E).
  - rewrite Hscript. discriminate.
  - reflexivity.
Defined.

Lemma data_and_task_parameters_witness :
  match
    gen_commands_params Sample.settings Sample.constants
      (Sample.world Sample.proxy_hosts) Sample.call Sample.linux_agent "p1" false
      None None None None
  with
  | Ok (plan, params) =>
      script_file_name plan = "setup_agent.sh" /\
      exists data task,
        resolved_data_servers (Sample.world Sample.proxy_hosts) Sample.linux_agent
          (ap plan) (proxies plan) Sample.channel = Ok data /\
        resolved_task_servers (Sample.world Sample.proxy_hosts) Sample.linux_agent
          (ap plan) (proxies plan) Sample.channel = Ok task /\
        params !! 13%nat = Some ("-a " +:+ dq +:+ data +:+ dq) /\
        params !! 14%nat = Some ("-k " +:+ dq +:+ task +:+ dq)
  | Raise _ => False
  end.
Proof.
  assert (exists plan params,
            gen_commands_params Sample.settings Sample.constants
              (Sample.world Sample.proxy_hosts) Sample.call Sample.linux_agent "p1"
              false None None None None = Ok (plan, params) /\
            script_file_name plan = "setup_agent.sh") as (plan & params & E & Hscript)
    by (eexists _, _; split; vm_compute; reflexivity).
  rewrite E. split; [ exact Hscript | ].
  destruct (data_and_task_parameters Sample.settings Sample.constants
              (Sample.world Sample.proxy_hosts) Sample.call Sample.linux_agent "p1"
              false None None None None plan params E)
    as (data & task & Hdata & Htask & Ha & Hk & _).
  rewrite Hscript in Ha, Hk. exists data, task. done.
Defined.

(** C1 fails on the code: for a [PAGENT] whose proxies have the inner IPs
    [10.0.0.1], [10.0.0.1] and [10.0.0.2], the task servers are the string
    [10.0.0.1,10.0.0.2], and the upstream nodes of the plan are the distinct
    characters of that string, not the two addresses. *)
Theorem upstream_nodes_of_repeated_proxies :
  map inner_ip Sample.proxy_hosts = ["10.0.0.1"; "10.0.0.1"; "10.0.0.2"] /\
  exists plan,
    gen_commands Sample.settings Sample.constants (Sample.world Sample.proxy_hosts)
      Sample.call Sample.pagent "p1" false None None None None = Ok plan /\
    upstream_nodes plan = [","; "1"; "0"; "."; "2"] /\
    ("10.0.0.1" ∉ upstream_nodes plan) /\ ("10.0.0.2" ∉ upstream_nodes plan).
Proof.
  split; [ reflexivity | ].
  assert (exists plan,
            gen_commands Sample.settings Sample.constants
              (Sample.world Sample.proxy_hosts) Sample.call Sample.pagent "p1" false
              None None None None = Ok plan /\
            upstream_nodes plan = [","; "1"; "0"; "."; "2"]) as (plan & E & Hnodes)
    by (eexists; split; vm_compute; reflexivity).
  exists plan. split; [ exact E | ]. split; [ exact Hnodes | ].
  rewrite Hnodes.
  split; intros Hin;
    repeat (apply elem_of_cons in Hin as [Hin|Hin]; [ discriminate Hin | ]);
    by apply elem_of_nil in Hin.
Qed.

(** *** The batch *)

Section Batch.

Variable settings : Settings.
Variable constants : Constants.
Variable world : World.

Lemma gen_commands_host call h pipeline_id is_uninstall identity hap ps channel plan :
  gen_commands settings constants world call h pipeline_id is_uninstall identity hap ps
    channel = Ok plan ->
  host plan = h.
Proof.
  intros H. apply gen_commands_Ok in H as [params H].
  apply gen_commands_params_Ok in H as (bt & d0 & data & task & pkg & cb & ac & dl & H).
  by destruct H as (_ & _ & _ & _ & _ & _ & Hhost & _).
Qed.

(** A step that returns has added the plan of its host, and nothing else,
    to the map of plans. *)
Lemma batch_step_Ok call pipeline_id is_uninstall identities st h st' :
  batch_step settings constants world call pipeline_id is_uninstall identities st h
    = Ok st' ->
  exists plan,
    host plan = h /\
    host_id__installation_tool_map st'
      = <[bk_host_id h := plan]> (host_id__installation_tool_map st).
Proof.
  unfold batch_step. intros H.
  apply bind_Ok in H as (host_ap & _ & H).
  apply bind_Ok in H as (ps & _ & H).
  apply bind_Ok in H as (channel & _ & H).
  apply bind_Ok in H as (plan & Hplan & H).
  injection H as <-. exists plan. split; [ | done ].
  by apply gen_commands_host in Hplan.
Qed.

(** A step raises what [gen_commands] raises for its host. *)
Lemma batch_step_Raise call pipeline_id is_uninstall identities st h host_ap e :
  AccessPoint_ap_id_obj_map world !! ap_id h = Some host_ap ->
  gen_commands settings constants world call h pipeline_id is_uninstall
    (Some (default (Host_identity world h) (identities !! bk_host_id h)))
    (Some host_ap)
    (Some (default (Host_proxies world h) (cloud_id_proxies_map st !! bk_cloud_id h)))
    (Some (default (Host_install_channel world h)
             (install_channel_id_obj_map st !! install_channel_id h)))
    = Raise e ->
  batch_step settings constants world call pipeline_id is_uninstall identities st h
    = Raise e.
Proof.
  intros Hap Hgen. unfold batch_step. rewrite Hap. cbn [getitem mbind result_bind].
  destruct (cloud_id_proxies_map st !! bk_cloud_id h) as [ps|] eqn:Hps;
    [ rewrite Hps | rewrite lookup_insert_eq ];
    cbn [getitem mbind result_bind];
    (destruct (install_channel_id_obj_map st !! install_channel_id h) as [c|] eqn:Hc;
       [ rewrite Hc | rewrite lookup_insert_eq ]);
    cbn [getitem mbind result_bind default from_option id] in *; by rewrite Hgen.
Qed.

(** The loop stops at the first host whose step raises. *)
Lemma batch_loop_Raise calls pipeline_id is_uninstall identities pre h post e :
  forall i st st',
    batch_loop settings constants world calls i pipeline_id is_uninstall identities pre st
      = Ok st' ->
    batch_step settings constants world (calls (i + List.length pre)%nat) pipeline_id
      is_uninstall identities st' h = Raise e ->
    batch_loop settings constants world calls i pipeline_id is_uninstall identities
      (pre ++ h :: post) st = Raise e.
Proof.
  induction pre as [|h0 pre IH]; intros i st st' Hpre Hstep; cbn in *.
  - injection Hpre as ->. rewrite Nat.add_0_r in Hstep. by rewrite Hstep.
  - apply bind_Ok in Hpre as (st0 & Hstep0 & Hpre). rewrite Hstep0. cbn.
    apply (IH (S i) st0 st'); [ done | ].
    by replace (S i + List.length pre)%nat with (i + S (List.length pre))%nat by lia.
Qed.

(** A loop that returns has kept the hosts that were in the map and has
    added every host of its list, each under its own id. *)
Lemma batch_loop_Ok calls pipeline_id is_uninstall identities hosts :
  forall i st st',
    batch_loop settings constants world calls i pipeline_id is_uninstall identities hosts
      st = Ok st' ->
    (forall k, is_Some (host_id__installation_tool_map st !! k) ->
               is_Some (host_id__installation_tool_map st' !! k)) /\
    (forall h, h ∈ hosts -> is_Some (host_id__installation_tool_map st' !! bk_host_id h)).
Proof.
  induction hosts as [|h0 hosts IH]; intros i st st' H; cbn in H.
  - injection H as ->. split; [ done | ]. intros h Hin. by apply elem_of_nil in Hin.
  - apply bind_Ok in H as (st0 & Hstep & H).
    apply IH in H as [Hkeep Hall].
    apply batch_step_Ok in Hstep as (plan & _ & Hmap).
    split.
    + intros k Hk. apply Hkeep. rewrite Hmap, lookup_insert_is_Some. 
      destruct (decide (bk_host_id h0 = k)); [ by left | by right ].
    + intros h Hin. apply elem_of_cons in Hin as [-> | Hin]; [ | by apply Hall ].
      apply Hkeep. rewrite Hmap, lookup_insert_eq. by eexists.
Qed.

(** The plans of a map that the loop returns are plans of the hosts they
    are stored under. *)
Lemma batch_loop_hosts calls pipeline_id is_uninstall identities hosts :
  forall i st st',
    batch_loop settings constants world calls i pipeline_id is_uninstall identities hosts
      st = Ok st' ->
    (forall k plan, host_id__installation_tool_map st !! k = Some plan ->
                    bk_host_id (host plan) = k) ->
    forall k plan, host_id__installation_tool_map st' !! k = Some plan ->
                   bk_host_id (host plan) = k.
Proof.
  induction hosts as [|h0 hosts IH]; intros i st st' H Hinv; cbn in H.
  - by injection H as ->.
  - apply bind_Ok in H as (st0 & Hstep & H).
    apply (IH _ _ _ H). intros k plan Hk.
    apply batch_step_Ok in Hstep as (plan0 & Hhost & Hmap).
    rewrite Hmap in Hk. apply lookup_insert_Some in Hk as [[<- <-] | [_ Hk]].
    + by rewrite Hhost.
    + by apply Hinv.
Qed.

(** C3, as the code has it: [batch_gen_commands] does not isolate the
    failure of a host.  When the step of a host raises, after the steps of
    the hosts before it have returned, the batch raises the same exception
    and returns no map, and the step of a host raises what [gen_commands]
    raises for it.  The batch returns a map only when the plan of every host
    was generated, and the map then holds, under the id of each host of the
    list, a plan of a host with that id. *)
Theorem batch_gen_commands_all_or_nothing calls hosts pipeline_id is_uninstall :
  let identities := host_id_identity_map world (map bk_host_id hosts) in
  (forall pre h post st e,
     hosts = pre ++ h :: post ->
     batch_loop settings constants world calls 0 pipeline_id is_uninstall identities pre
       empty_batch_state = Ok st ->
     batch_step settings constants world (calls (List.length pre)) pipeline_id
       is_uninstall identities st h = Raise e ->
     batch_gen_commands settings constants world calls hosts pipeline_id is_uninstall
       = Raise e) /\
  (forall call st h host_ap e,
     AccessPoint_ap_id_obj_map world !! ap_id h = Some host_ap ->
     gen_commands settings constants world call h pipeline_id is_uninstall
       (Some (default (Host_identity world h) (identities !! bk_host_id h)))
       (Some host_ap)
       (Some (default (Host_proxies world h) (cloud_id_proxies_map st !! bk_cloud_id h)))
       (Some (default (Host_install_channel world h)
                (install_channel_id_obj_map st !! install_channel_id h)))
       = Raise e ->
     batch_step settings constants world call pipeline_id is_uninstall identities st h
       = Raise e) /\
  (forall m,
     batch_gen_commands settings constants world calls hosts pipeline_id is_uninstall
       = Ok m ->
     forall h, h ∈ hosts ->
       exists plan, m !! bk_host_id h = Some plan /\
                    bk_host_id (host plan) = bk_host_id h).
Proof.
  intros identities. split; [ | split ].
  - intros pre h post st e -> Hpre Hstep. unfold batch_gen_commands.
    fold identities. by erewrite batch_loop_Raise.
  - intros call st h host_ap e. apply batch_step_Raise.
  - intros m H h Hin. unfold batch_gen_commands in H. fold identities in H.
    apply bind_Ok in H as (st & Hloop & [= <-]).
    destruct (batch_loop_Ok _ _ _ _ _ _ _ _ Hloop) as [_ Hall].
    destruct (Hall h Hin) as [plan Hplan]. exists plan. split; [ done | ].
    apply (batch_loop_hosts _ _ _ _ _ _ _ _ Hloop); [ | done ].
    intros k plan0 Hk. cbn in Hk. by rewrite lookup_empty in Hk.
Qed.

End Batch.

(** C3 as stated fails: in a batch of a Linux [AGENT], whose plan alone is
    generated, and a [PAGENT] that has no proxy, the failure of the [PAGENT]
    ends the whole batch, in either order, and no map with the plan of the
    [AGENT] is returned. *)
Lemma batch_aborts_on_one_failing_host :
  is_ok (gen_commands Sample.settings Sample.constants (Sample.world []) Sample.call
           Sample.linux_agent "p1" false None None None None) = true /\
  batch_gen_commands Sample.settings Sample.constants (Sample.world [])
    (fun _ => Sample.call) [Sample.linux_agent; Sample.pagent] "p1" false
  = Raise AliveProxyNotExistsError /\
  batch_gen_commands Sample.settings Sample.constants (Sample.world [])
    (fun _ => Sample.call) [Sample.pagent; Sample.linux_agent] "p1" false
  = Raise AliveProxyNotExistsError.
Proof. repeat split; by vm_compute. Qed.

(** *** Further properties of the plan *)

Lemma upstream_nodes_characters_witness :
  match
    gen_commands Sample.settings Sample.constants (Sample.world Sample.proxy_hosts)
      Sample.call Sample.linux_agent "p1" false None None None None
  with
  | Ok plan => "," ∈ upstream_nodes plan /\ String.length "," = 1%nat
  | Raise _ => False
  end.
Proof.
  assert (exists plan,
            gen_commands Sample.settings Sample.constants
              (Sample.world Sample.proxy_hosts) Sample.call Sample.linux_agent "p1" false
              None None None None = Ok plan /\
            upstream_nodes plan !! 1%nat = Some ",") as (plan & E & Hnode)
    by (eexists; split; vm_compute; reflexivity).
  rewrite E. apply list_elem_of_lookup_2 in Hnode. split; [ exact Hnode | ].
  apply (upstream_nodes_characters Sample.settings Sample.constants
           (Sample.world Sample.proxy_hosts) Sample.call Sample.linux_agent "p1" false
           None None None None plan remove_dups_list_set_ok E "," Hnode).
Defined.

(** X3: for a [PAGENT] without an install channel the three server strings
    are one and the same: the comma-join of the distinct inner IPs of the
    proxies; and the jump server is the proxy that was picked. *)
Theorem pagent_servers_identical settings world call h host_ap ps channel jump bt d0 data
    task pkg cb :
  has_install_channel h = false -> node_type h = PAGENT ->
  list_set_ok (list_set world) ->
  fetch_gse_servers settings world call h host_ap ps channel
    = Ok (jump, bt, d0, data, task, pkg, cb) ->
  exists ips,
    NoDup ips /\ (forall ip, ip ∈ ips <-> ip ∈ map inner_ip ps) /\
    bt = join "," ips /\ data = join "," ips /\ task = join "," ips /\
    jump = get_random_alive_proxy call h ps /\ jump <> None.
Proof.
  intros Hc Hn Hset. unfold fetch_gse_servers. rewrite Hc, Hn. intros H.
  apply bind_Ok in H as (p & Hp & [= <- <- <- <- <- _ _]).
  exists (list_set world (map inner_ip ps)).
  destruct (Hset (map inner_ip ps)) as [Hnodup Hin].
  destruct (get_random_alive_proxy call h ps); [ | discriminate ].
  injection Hp as ->. done.
Qed.

Lemma pagent_servers_identical_witness :
  exists ips,
    NoDup ips /\ (forall ip, ip ∈ ips <-> ip ∈ map inner_ip Sample.proxy_hosts) /\
    "10.0.0.1,10.0.0.2" = join "," ips /\ "10.0.0.1,10.0.0.2" = join "," ips /\
    "10.0.0.1,10.0.0.2" = join "," ips /\
    Some (Sample.mk_host 101 "10.0.0.1" PROXY "LINUX" None)
      = get_random_alive_proxy Sample.call Sample.pagent Sample.proxy_hosts /\
    Some (Sample.mk_host 101 "10.0.0.1" PROXY "LINUX" None) <> None.
Proof.
  apply (pagent_servers_identical Sample.settings (Sample.world Sample.proxy_hosts)
           Sample.call Sample.pagent Sample.access_point Sample.proxy_hosts
           Sample.channel _ _ "10.0.0.1,10.0.0.2" _ _ "http://203.0.113.9/download"
           "http://outer.example.com/backend");
    [ reflexivity | reflexivity | apply remove_dups_list_set_ok | reflexivity ].
Defined.



(** ** Further properties of the code *)

(* LEMMAS *)
(** *** The check of a list of commands *)

(** X5: [check_run_commands] returns if every command that starts with
    [-r] matches the callback pattern, and raises [GenCommandsError]
    otherwise; it raises nothing else, and the check of two lists one after
    the other is the check of their concatenation. *)
Theorem check_run_commands_forallb :
  (forall l,
     check_run_commands l =
       if forallb command_ok l then Ok () else Raise GenCommandsError) /\
  (forall l1 l2,
     check_run_commands (l1 ++ l2) =
       check_run_commands l1 ≫= fun _ => check_run_commands l2).
Proof.
  assert (forall l,
            check_run_commands l =
              if forallb command_ok l then Ok () else Raise GenCommandsError) as Hall.
  { induction l as [|c l IH]; [ done | ].
    cbn [check_run_commands forallb]. unfold command_ok at 1.
    destruct (startswith "-r" c); cbn [negb orb andb]; [ | exact IH ].
    destruct (re_match_callback c); cbn [negb andb]; [ exact IH | done ]. }
  split; [ exact Hall | ].
  intros l1 l2. rewrite !Hall, forallb_app.
  destruct (forallb command_ok l1); cbn; [ by rewrite <- Hall | done ].
Qed.

(** *** The failures of the topology resolution *)

(** X6: [fetch_gse_servers] fails in three ways only.  With an install
    channel it raises [KeyError] when the channel lacks one of the three
    server lists, and [AttributeError] when the lists are there and the
    channel has no jump server; without an install channel it raises only
    for a [PAGENT] with no proxy alive.  An [AGENT] or a [PROXY] without an
    install channel is always resolved. *)
Theorem fetch_gse_servers_Raise_iff settings world call h host_ap ps jump us e :
  fetch_gse_servers settings world call h host_ap ps (jump, us) = Raise e <->
  (has_install_channel h = true /\
   ((e = KeyError /\
     (channel_btfileserver us = None \/ channel_dataserver us = None \/
      channel_taskserver us = None)) \/
    (e = AttributeError /\ jump = None /\
     is_Some (channel_btfileserver us) /\ is_Some (channel_dataserver us) /\
     is_Some (channel_taskserver us)))) \/
  (has_install_channel h = false /\ node_type h = PAGENT /\
   get_random_alive_proxy call h ps = None /\ e = AliveProxyNotExistsError).
Proof.
  unfold fetch_gse_servers.
  destruct (has_install_channel h).
  - destruct (channel_btfileserver us) as [bt|], (channel_dataserver us) as [data|],
      (channel_taskserver us) as [task|], jump as [j|]; cbn;
      (split; [ intros ?; simplify_eq | ]);
      rewrite ?is_Some_alt; intuition congruence.
  - destruct (node_type h); cbn; [ naive_solver | naive_solver | ].
    destruct (get_random_alive_proxy call h ps); cbn; naive_solver.
Qed.

(** *** The failures of the shell selection *)

(** X7: [format_run_cmd_by_os_type] fails only with [KeyError], and exactly
    when it consults the suffix table (the OS is not Windows, or there is no
    command) and the table lacks the OS or AIX.  For Windows with a command
    the table is not consulted. *)
Theorem format_run_cmd_by_os_type_Raise_iff constants os run_cmd e :
  format_run_cmd_by_os_type constants os run_cmd = Raise e <->
  e = KeyError /\
  (lower os = OS_WINDOWS constants -> opt_str_truthy run_cmd = false) /\
  (SUFFIX_MAP constants !! lower os = None \/
   SUFFIX_MAP constants !! OS_AIX constants = None).
Proof.
  unfold format_run_cmd_by_os_type.
  case_bool_decide as Hw; destruct (opt_str_truthy run_cmd) eqn:Hcmd; cbn [andb];
    try (split; [ discriminate | intros (_ & Hwin & _); by specialize (Hwin Hw) ]);
    destruct (SUFFIX_MAP constants !! lower os),
      (SUFFIX_MAP constants !! OS_AIX constants); cbn;
    (split; [ intros ?; simplify_eq | ]); naive_solver.
Qed.

(** *** The parameters of the relay branch *)

Section RelayParameters.

Variable settings : Settings.
Variable constants : Constants.
Variable world : World.

(** What the relay branch returns: the access point has a Linux agent
    config, the shell and the script of the host's OS are known, the jump
    server is there, and the parameter list is the one below. *)
Lemma relay_commands_params h is_uninstall identity host_ap jump agent_config pkg script
    params dest win params' run dl :
  relay_commands settings constants world h is_uninstall identity host_ap jump
    agent_config pkg script params = Ok (dest, win, params', run, dl) ->
  exists linux_config shell host_script j,
    get_agent_config host_ap (OsType_LINUX constants) = Some linux_config /\
    format_run_cmd_by_os_type constants (os_type h) None = Ok shell /\
    SCRIPT_FILE_NAME_MAP constants !! os_type h = Some host_script /\
    jump = Some j /\
    dest = suffix_slash constants (OsType_LINUX constants) (temp_path linux_config) /\
    win = [] /\
    params' =
      (if is_manual h then [dest +:+ script +:+ " "] else [])
      ++ params
      ++ [ "-L " +:+ DOWNLOAD_PATH settings;
           "-HLIP " +:+ str_or (login_ip h) (inner_ip h);
           "-HIIP " +:+ inner_ip h;
           "-HA " +:+ account identity;
           "-HP " +:+ pretty (port identity);
           "-HI '" +:+ fmt_opt_str (match auth_type identity with
                                    | KEY => key identity
                                    | PASSWORD => password identity
                                    end) +:+ "'";
           "-HC " +:+ pretty (bk_cloud_id h);
           "-HNT " +:+ NodeType_str (node_type h);
           "-HOT " +:+ lower (os_type h);
           "-HDD '" +:+ suffix_slash constants (lower (os_type h))
                          (temp_path agent_config) +:+ "'";
           "-HPP '" +:+ BK_NODEMAN_NGINX_PROXY_PASS_PORT settings +:+ "'";
           "-HSN '" +:+ host_script +:+ "'";
           "-HS '" +:+ shell +:+ "'";
           "-p '" +:+ setup_path agent_config +:+ "'";
           "-I " +:+ inner_ip j;
           "-o " +:+ gen_nginx_download_url settings (inner_ip j);
           uninstall_flag is_uninstall ]
      ++ channel_flags world h /\
    run = join " " params' /\
    dl =
      "if [ ! -e " +:+ dest +:+ script +:+ " ] || "
      +:+ "[ `curl " +:+ pkg +:+ "/" +:+ script
      +:+ " -s | md5sum | awk '{print $1}'` "
      +:+ "!= `md5sum " +:+ dest +:+ script +:+ " | awk '{print $1}'` ]; then "
      +:+ "curl " +:+ pkg +:+ "/" +:+ script +:+ " -o " +:+ dest
      +:+ script +:+ " --connect-timeout 5 -sSf "
      +:+ "&& chmod +x " +:+ dest +:+ script +:+ "; fi".
Proof.
  unfold relay_commands, channel_flags, uninstall_flag. intros H. bind_ok H.
  destruct jump as [j|]; [ injection E2 as <- | discriminate ].
  destruct (get_agent_config host_ap (OsType_LINUX constants)) as [cfg|] eqn:Hcfg;
    [ injection E as <- | discriminate ].
  destruct (SCRIPT_FILE_NAME_MAP constants !! os_type h) as [hs|] eqn:Hhs;
    [ injection E1 as <- | discriminate ].
  injection H as <- <- <- <- <-.
  exists cfg, a0, hs, j. do 6 (split; [ done | ]). split; [ | done ].
  destruct (has_install_channel h);
    [ destruct (Host_install_channel world h) as [? us]; cbn [snd];
      destruct (default true (agent_download_proxy us));
      destruct (opt_str_truthy (channel_proxy_address us)) | ];
    destruct (is_manual h);
    repeat first [ rewrite <- app_assoc | progress cbn [app] ]; reflexivity.
Qed.

(** The relay branch returns whenever those lookups succeed. *)
Lemma relay_commands_returns h is_uninstall identity host_ap j agent_config pkg script
    params linux_config shell host_script :
  get_agent_config host_ap (OsType_LINUX constants) = Some linux_config ->
  format_run_cmd_by_os_type constants (os_type h) None = Ok shell ->
  SCRIPT_FILE_NAME_MAP constants !! os_type h = Some host_script ->
  exists r,
    relay_commands settings constants world h is_uninstall identity host_ap (Some j)
      agent_config pkg script params = Ok r.
Proof.
  intros Hcfg Hshell Hhs. unfold relay_commands. rewrite Hcfg, Hshell, Hhs. cbn. eauto.
Qed.

End RelayParameters.

(** *** Strings *)

Lemma prefix_append (s t : string) : String.prefix s (s +:+ t) = true.
Proof.
  induction s as [|c s IH]; [ by destruct t | ].
  cbn [String.prefix]. change (String c s +:+ t) with (String c (s +:+ t)).
  cbn [String.prefix]. by destruct (ascii_dec c c).
Qed.

Lemma prefix_join_head (sep x : string) (l : list string) :
  String.prefix x (join sep (x :: l)) = true.
Proof.
  unfold join. destruct l as [|y l]; cbn [String.concat].
  - rewrite <- (prefix_append x ""). f_equal. induction x as [|c x IH]; [ done | ].
    change (String c x +:+ "") with (String c (x +:+ "")). by rewrite <- IH.
  - apply prefix_append.
Qed.

Lemma append_truthy (a b c : string) : str_truthy (a +:+ b +:+ " " +:+ c) = true.
Proof. by destruct a, b. Qed.

(** *** The relay branch in the plan *)

Section RelayPlan.

Variable settings : Settings.
Variable constants : Constants.
Variable world : World.

(** X8: in the relay branch the parameter list ends with the uninstall
    flag followed by the flags of the install channel, and these flags are
    the ones of the channel that the host itself refers to
    ([host.install_channel]): [-ADP 'True'] unless that channel switches the
    agent download proxy off, then [-CPA '<address>'] when it has a proxy
    address; a host without install channel gets neither. *)
Theorem relay_parameters_end_with_channel_flags call h pipeline_id is_uninstall identity
    hap ps channel plan params :
  gen_commands_params settings constants world call h pipeline_id is_uninstall identity
    hap ps channel = Ok (plan, params) ->
  script_file_name plan = SETUP_PAGENT_PY constants ->
  exists front,
    params = front ++ [uninstall_flag is_uninstall] ++ channel_flags world h /\
    run_cmd plan = join " " params.
Proof.
  intros H Hscript.
  apply gen_commands_params_Ok in H as (bt & d0 & data & task & pkg & cb & ac & dl & H).
  destruct H as (_ & _ & _ & _ & Hbranch & _).
  rewrite bool_decide_eq_true_2 in Hbranch by done.
  apply relay_commands_params in Hbranch
    as (cfg & shell & hs & j & _ & _ & _ & _ & _ & _ & -> & -> & _).
  match goal with
  | |- exists front, ?pre ++ ?base ++ ?l ++ _ = _ /\ _ =>
      exists (pre ++ base ++ removelast l)
  end.
  split; [ | done ]. rewrite <- !app_assoc. reflexivity.
Qed.

(** X10: the plan of a manual relay install invokes the script itself: its
    run command starts with the path of the script on the jump server. *)
Theorem manual_relay_run_cmd_starts_with_script call h pipeline_id is_uninstall identity
    hap ps channel plan :
  gen_commands settings constants world call h pipeline_id is_uninstall identity hap ps
    channel = Ok plan ->
  script_file_name plan = SETUP_PAGENT_PY constants ->
  is_manual h = true ->
  String.prefix (dest_dir plan +:+ script_file_name plan +:+ " ") (run_cmd plan) = true.
Proof.
  intros H Hscript Hmanual. apply gen_commands_Ok in H as [params H].
  apply gen_commands_params_Ok in H as (bt & d0 & data & task & pkg & cb & ac & dl & H).
  destruct H as (_ & _ & _ & _ & Hbranch & _).
  rewrite bool_decide_eq_true_2 in Hbranch by done.
  apply relay_commands_params in Hbranch
    as (cfg & shell & hs & j & _ & _ & _ & _ & _ & _ & -> & -> & _).
  rewrite Hmanual. cbn [app]. apply prefix_join_head.
Qed.

(** X11: a host that is not a [PROXY] gets no plan when the table of
    scripts lacks its OS: the direct branch has no script to select, and the
    relay branch none to name to the relay script. *)
Theorem unknown_os_gets_no_plan call h pipeline_id is_uninstall identity hap ps channel :
  node_type h <> PROXY ->
  SCRIPT_FILE_NAME_MAP constants !! os_type h = None ->
  exists e,
    gen_commands settings constants world call h pipeline_id is_uninstall identity hap ps
      channel = Raise e.
Proof.
  intros Hrole Hos.
  destruct (gen_commands settings constants world call h pipeline_id is_uninstall
              identity hap ps channel) as [plan|e] eqn:H; [ exfalso | by exists e ].
  apply gen_commands_Ok in H as [params H].
  apply gen_commands_params_Ok in H as (bt & d0 & data & task & pkg & cb & ac & dl & H).
  destruct H as (_ & _ & _ & Hchoose & Hbranch & _).
  case_bool_decide as Hscript.
  - apply relay_commands_params in Hbranch as (cfg & shell & hs & j & _ & _ & Hhs & _).
    by rewrite Hos in Hhs.
  - unfold choose_script_file in Hchoose. rewrite decide_False in Hchoose by done.
    destruct (_ || _); [ apply Hscript; by injection Hchoose | ].
    by rewrite Hos in Hchoose.
Qed.

(** X12: the destination directory of a relay plan is the temp path of the
    access point's Linux agent config, whatever the OS of the host; the one
    of a direct plan is the temp path of the agent config of the host's OS.
    Both carry the separator that [suffix_slash] adds. *)
Theorem dest_dir_by_branch call h pipeline_id is_uninstall identity hap ps channel plan :
  gen_commands settings constants world call h pipeline_id is_uninstall identity hap ps
    channel = Ok plan ->
  exists agent_config,
    get_agent_config (ap plan)
      (if bool_decide (script_file_name plan = SETUP_PAGENT_PY constants)
       then OsType_LINUX constants else os_type h) = Some agent_config /\
    dest_dir plan =
      suffix_slash constants
        (if bool_decide (script_file_name plan = SETUP_PAGENT_PY constants)
         then OsType_LINUX constants else lower (os_type h))
        (temp_path agent_config).
Proof.
  intros H. apply gen_commands_Ok in H as [params H].
  apply gen_commands_params_Ok in H as (bt & d0 & data & task & pkg & cb & ac & dl & H).
  destruct H as (_ & Hconfig & _ & _ & Hbranch & _ & _ & -> & _).
  case_bool_decide as Hscript.
  - apply relay_commands_params in Hbranch as (cfg & shell & hs & j & Hcfg & _ & _ & _ & -> & _).
    by exists cfg.
  - apply direct_commands_Ok in Hbranch as (-> & _). by exists ac.
Qed.

(** X13: a host with an install channel that installs through the relay
    script fetches its packages from the jump server of the channel: the
    package URL [-l] and the download URL [-o] are the same nginx URL of the
    jump server, and [-I] is its inner IP. *)
Theorem channel_relay_downloads_from_jump_server call h pipeline_id is_uninstall identity
    hap ps channel plan params :
  gen_commands_params settings constants world call h pipeline_id is_uninstall identity
    hap ps channel = Ok (plan, params) ->
  script_file_name plan = SETUP_PAGENT_PY constants ->
  has_install_channel h = true ->
  exists j,
    jump_server plan = Some j /\
    ("-l " +:+ gen_nginx_download_url settings (inner_ip j)) ∈ params /\
    ("-o " +:+ gen_nginx_download_url settings (inner_ip j)) ∈ params /\
    ("-I " +:+ inner_ip j) ∈ params.
Proof.
  intros H Hscript Hchannel.
  apply gen_commands_params_Ok in H as (bt & d0 & data & task & pkg & cb & ac & dl & H).
  destruct H as (Hfetch & _ & _ & _ & Hbranch & _).
  rewrite bool_decide_eq_true_2 in Hbranch by done.
  apply relay_commands_params in Hbranch
    as (cfg & shell & hs & j & _ & _ & _ & Hj & _ & _ & -> & _).
  exists j. split; [ done | ].
  unfold fetch_gse_servers in Hfetch. rewrite Hchannel in Hfetch.
  destruct (default _ channel) as [j' us]. bind_ok Hfetch.
  injection Hfetch as -> _ _ _ _ <- _. rewrite Hj in E2. injection E2 as <-.
  unfold base_run_cmd_params.
  split; [ | split ]; rewrite !elem_of_app; right; [ left | right; left | right; left ];
    repeat first [ apply list_elem_of_here | apply list_elem_of_further ].
Qed.

End RelayPlan.

(** *** The steps of [gen_commands], both ways *)

Section GenCommandsSteps.

Variable settings : Settings.
Variable constants : Constants.
Variable world : World.

(** A call of [gen_commands] returns exactly when each of its steps does,
    and the plan is built from what the steps return. *)
Lemma gen_commands_params_iff call h pipeline_id is_uninstall identity hap ps channel
    plan params :
  let host_ap := default (Host_ap world h) hap in
  let identity' := default (Host_identity world h) identity in
  let ps' := list_or ps (Host_proxies world h) in
  let install_channel := default (Host_install_channel world h) channel in
  gen_commands_params settings constants world call h pipeline_id is_uninstall
    identity hap ps channel = Ok (plan, params) <->
  exists jump bt d0 data task pkg cb agent_config script dest win run dl,
    let base :=
      base_run_cmd_params pipeline_id cb pkg
        (aes_cipher_encrypt world (token_payload call h pipeline_id))
        (port_config host_ap) bt data task in
    fetch_gse_servers settings world call h host_ap ps' install_channel
      = Ok (jump, bt, d0, data, task, pkg, cb) /\
    get_agent_config host_ap (os_type h) = Some agent_config /\
    re_match_callback ("-r " +:+ cb) = true /\
    choose_script_file constants h = Ok script /\
    (if bool_decide (script = SETUP_PAGENT_PY constants)
     then relay_commands settings constants world h is_uninstall identity' host_ap jump
            agent_config pkg script base
     else direct_commands constants h is_uninstall host_ap agent_config pkg script
            (suffix_slash constants (lower (os_type h)) (temp_path agent_config)) base)
      = Ok (dest, win, params, run, dl) /\
    plan = {| script_file_name := script;
              dest_dir := dest;
              win_commands := win;
              upstream_nodes := list_set world (chars task);
              jump_server := jump;
              pre_commands := pre_commands_of dest script dl;
              run_cmd := run;
              host := h;
              ap := host_ap;
              identity_data := identity';
              proxies := ps' |}.
Proof.
  intros host_ap identity' ps' install_channel.
  unfold gen_commands_params.
  fold host_ap. fold identity'. fold ps'. fold install_channel. split.
  - intros H.
    apply bind_Ok in H as ([[[[[[jump bt] d0] data] task] pkg] cb] & Efetch & H).
    apply bind_Ok in H as (agent_config & Econfig & H).
    apply bind_Ok in H as ([] & Echeck & H).
    apply bind_Ok in H as (script & Escript & H).
    apply bind_Ok in H as ([[[[dest win] params'] run] dl] & Ebranch & H).
    injection H as <- <-.
    exists jump, bt, d0, data, task, pkg, cb, agent_config, script, dest, win, run, dl.
    rewrite check_run_commands_base in Echeck.
    destruct (get_agent_config host_ap (os_type h)); [ | discriminate ].
    destruct (re_match_callback _); [ | discriminate ].
    injection Econfig as ->. do 5 (split; [ done | ]).
    unfold pre_commands_of. by destruct (path_eqb _ _).
  - intros (jump & bt & d0 & data & task & pkg & cb & agent_config & script & dest & win
            & run & dl & Hfetch & Hconfig & Hmatch & Hscript & Hbranch & ->).
    rewrite Hfetch. cbn [mbind result_bind]. rewrite Hconfig. cbn [getitem].
    rewrite check_run_commands_base, Hmatch, Hscript. cbn [mbind result_bind].
    cbn zeta in Hbranch. rewrite Hbranch. cbn [mbind result_bind mret result_ret].
    unfold pre_commands_of. by destruct (path_eqb _ _).
Qed.

End GenCommandsSteps.

(** *** Install and uninstall *)

Section Uninstall.

Variable settings : Settings.
Variable constants : Constants.
Variable world : World.

Lemma format_run_cmd_by_os_type_command os c1 c2 r1 :
  format_run_cmd_by_os_type constants os (Some c1) = Ok r1 ->
  str_truthy c1 = true -> str_truthy c2 = true ->
  exists r2, format_run_cmd_by_os_type constants os (Some c2) = Ok r2.
Proof.
  unfold format_run_cmd_by_os_type. cbn [opt_str_truthy]. intros H H1 H2.
  rewrite H1 in H. rewrite H2.
  destruct (bool_decide _); cbn [andb] in *; [ by eexists | ].
  destruct (SUFFIX_MAP constants !! lower os); [ | discriminate ].
  destruct (SUFFIX_MAP constants !! OS_AIX constants); [ | discriminate ].
  cbn. by eexists.
Qed.

Lemma relay_commands_uninstall b1 b2 h identity host_ap jump agent_config pkg script
    params dest win params1 run1 dl :
  relay_commands settings constants world h b1 identity host_ap jump agent_config pkg
    script params = Ok (dest, win, params1, run1, dl) ->
  exists front back,
    params1 = front ++ uninstall_flag b1 :: back /\
    relay_commands settings constants world h b2 identity host_ap jump agent_config pkg
      script params
    = Ok (dest, win, front ++ uninstall_flag b2 :: back,
          join " " (front ++ uninstall_flag b2 :: back), dl).
Proof.
  intros H.
  apply relay_commands_params in H
    as (cfg & shell & hs & j & Hcfg & Hshell & Hhs & -> & -> & -> & -> & _ & ->).
  destruct (relay_commands_returns settings constants world h b2 identity host_ap j
              agent_config pkg script params cfg shell hs Hcfg Hshell Hhs)
    as [[[[[dest2 win2] params2] run2] dl2] H2].
  rewrite H2.
  apply relay_commands_params in H2
    as (cfg' & shell' & hs' & j' & Hcfg' & Hshell' & Hhs' & [= <-] & -> & -> & -> & -> & ->).
  rewrite Hcfg in Hcfg'. rewrite Hshell in Hshell'. rewrite Hhs in Hhs'.
  injection Hcfg' as <-. injection Hshell' as <-. injection Hhs' as <-.
  match goal with
  | |- exists front back, ?pre ++ ?base ++ ?l ++ ?flags = _ /\ _ =>
      exists (pre ++ base ++ removelast l), flags
  end.
  split; repeat first [ rewrite <- app_assoc | progress cbn [app removelast] ];
    reflexivity.
Qed.

Lemma direct_commands_uninstall b1 b2 h host_ap agent_config pkg script dest0 params dest
    win1 params1 run1 dl :
  direct_commands constants h b1 host_ap agent_config pkg script dest0 params
    = Ok (dest, win1, params1, run1, dl) ->
  exists front win2 run2,
    params1 = front ++ uninstall_flag b1 :: [] /\
    direct_commands constants h b2 host_ap agent_config pkg script dest0 params
    = Ok (dest, win2, front ++ uninstall_flag b2 :: [], run2, dl).
Proof.
  unfold direct_commands. intros H. apply bind_Ok in H as (run & Hrun & H).
  injection H as <- <- <- <- <-.
  eapply format_run_cmd_by_os_type_command in Hrun as [run2 Hrun2];
    [ | apply append_truthy | apply append_truthy ].
  eexists (params ++ [_; _; _; _; _]), _, run2.
  split; [ by rewrite <- app_assoc | ].
  rewrite <- app_assoc. cbn [app]. unfold uninstall_flag. rewrite Hrun2. reflexivity.
Qed.

(** X14: uninstalling changes one parameter.  When [gen_commands] returns
    a plan for one value of [is_uninstall] it returns one for the other
    value too; the two parameter lists differ in the single parameter that
    is [-R] for an uninstall and empty for an install, and the plans have the
    same script, destination directory, jump server, upstream nodes and
    pre-commands. *)
Theorem uninstall_changes_one_parameter call h pipeline_id b1 b2 identity hap ps channel
    plan1 params1 :
  gen_commands_params settings constants world call h pipeline_id b1 identity hap ps
    channel = Ok (plan1, params1) ->
  exists plan2 params2 front back,
    gen_commands_params settings constants world call h pipeline_id b2 identity hap ps
      channel = Ok (plan2, params2) /\
    params1 = front ++ uninstall_flag b1 :: back /\
    params2 = front ++ uninstall_flag b2 :: back /\
    script_file_name plan2 = script_file_name plan1 /\
    dest_dir plan2 = dest_dir plan1 /\
    jump_server plan2 = jump_server plan1 /\
    upstream_nodes plan2 = upstream_nodes plan1 /\
    pre_commands plan2 = pre_commands plan1.
Proof.
  intros H. apply gen_commands_params_iff in H
    as (jump & bt & d0 & data & task & pkg & cb & ac & script & dest & win & run & dl
        & Hfetch & Hconfig & Hmatch & Hscript & Hbranch & ->).
  cbn zeta in Hbranch.
  assert (exists front back win2 run2,
            params1 = front ++ uninstall_flag b1 :: back /\
            (if bool_decide (script = SETUP_PAGENT_PY constants)
             then relay_commands settings constants world h b2
                    (default (Host_identity world h) identity)
                    (default (Host_ap world h) hap) jump ac pkg script
                    (base_run_cmd_params pipeline_id cb pkg
                       (aes_cipher_encrypt world (token_payload call h pipeline_id))
                       (port_config (default (Host_ap world h) hap)) bt data task)
             else direct_commands constants h b2 (default (Host_ap world h) hap) ac pkg
                    script (suffix_slash constants (lower (os_type h)) (temp_path ac))
                    (base_run_cmd_params pipeline_id cb pkg
                       (aes_cipher_encrypt world (token_payload call h pipeline_id))
                       (port_config (default (Host_ap world h) hap)) bt data task))
            = Ok (dest, win2, front ++ uninstall_flag b2 :: back, run2, dl))
    as (front & back & win2 & run2 & -> & Hbranch2).
  { case_bool_decide.
    - apply (relay_commands_uninstall b1 b2) in Hbranch as (front & back & -> & H2).
      by exists front, back, win, (join " " (front ++ uninstall_flag b2 :: back)).
    - apply (direct_commands_uninstall b1 b2) in Hbranch
        as (front & win2 & run2 & -> & H2).
      by exists front, [], win2, run2. }
  eexists _, (front ++ uninstall_flag b2 :: back), front, back.
  split.
  - apply gen_commands_params_iff.
    exists jump, bt, d0, data, task, pkg, cb, ac, script, dest, win2, run2, dl.
    cbn zeta. do 5 (split; [ done | ]). reflexivity.
  - done.
Qed.

End Uninstall.

(** *** The callback URL *)

Section CallbackUrl.

Variable settings : Settings.
Variable constants : Constants.
Variable world : World.

(** The callback URL that each branch of [fetch_gse_servers] resolves. *)
Lemma fetch_gse_servers_callback_url call h host_ap ps channel jump bt d0 data task pkg
    cb :
  fetch_gse_servers settings world call h host_ap ps channel
    = Ok (jump, bt, d0, data, task, pkg, cb) ->
  cb = BKAPP_NODEMAN_CALLBACK_URL settings \/
  cb = str_or (outer_callback_url host_ap) (BKAPP_NODEMAN_CALLBACK_URL settings) \/
  cb = str_or (outer_callback_url host_ap) (BKAPP_NODEMAN_OUTER_CALLBACK_URL settings).
Proof.
  unfold fetch_gse_servers. destruct (has_install_channel h).
  - destruct channel as [j us]. intros H. bind_ok H.
    injection H as _ _ _ _ _ _ <-. destruct (decide _); auto.
  - destruct (node_type h); intros H; bind_ok H; injection H as _ _ _ _ _ _ <-; auto.
Qed.

Lemma gen_commands_GenCommandsError call h pipeline_id is_uninstall identity hap ps
    channel :
  gen_commands settings constants world call h pipeline_id is_uninstall identity hap ps
    channel = Raise GenCommandsError ->
  exists jump bt d0 data task pkg cb,
    fetch_gse_servers settings world call h (default (Host_ap world h) hap)
      (list_or ps (Host_proxies world h))
      (default (Host_install_channel world h) channel)
      = Ok (jump, bt, d0, data, task, pkg, cb) /\
    re_match_callback ("-r " +:+ cb) = false.
Proof.
  unfold gen_commands, gen_commands_params. intros H.
  apply bind_Raise in H as [H | ([plan params] & _ & [=])].
  apply bind_Raise in H as [H | ([[[[[[jump bt] d0] data] task] pkg] cb] & Efetch & H)].
  { by apply fetch_gse_servers_Raise in H. }
  apply bind_Raise in H as [H | (agent_config & Econfig & H)].
  { by apply getitem_Raise in H. }
  exists jump, bt, d0, data, task, pkg, cb. split; [ done | ].
  rewrite check_run_commands_base in H.
  destruct (re_match_callback _); [ exfalso | done ].
  apply bind_Raise in H as [[=] | ([] & _ & H)].
  apply bind_Raise in H as [H | (script & _ & H)].
  { by apply choose_script_file_Raise in H. }
  apply bind_Raise in H as [H | ([[[[? ?] ?] ?] ?] & _ & [=])].
  case_bool_decide.
  - by apply relay_commands_Raise in H.
  - by apply direct_commands_Raise in H.
Qed.

(** X15: whether the validation fails depends on the configuration alone.
    When the two default callback URLs of the settings match the pattern,
    and the override of the access point matches it when it is set, then
    [gen_commands] raises [GenCommandsError] for no host. *)
Theorem valid_callback_urls_never_fail call h pipeline_id is_uninstall identity hap ps
    channel :
  re_match_callback ("-r " +:+ BKAPP_NODEMAN_CALLBACK_URL settings) = true ->
  re_match_callback ("-r " +:+ BKAPP_NODEMAN_OUTER_CALLBACK_URL settings) = true ->
  (forall url,
     outer_callback_url (default (Host_ap world h) hap) = Some url -> url <> "" ->
     re_match_callback ("-r " +:+ url) = true) ->
  raises GenCommandsError
    (gen_commands settings constants world call h pipeline_id is_uninstall identity hap
       ps channel) = false.
Proof.
  intros Hinner Houter Hoverride.
  destruct (gen_commands settings constants world call h pipeline_id is_uninstall
              identity hap ps channel) as [plan|e] eqn:H; [ done | ].
  cbn. apply bool_decide_eq_false. intros ->.
  apply gen_commands_GenCommandsError in H
    as (jump & bt & d0 & data & task & pkg & cb & Hfetch & Hcb).
  assert (forall default_url,
            re_match_callback ("-r " +:+ default_url) = true ->
            re_match_callback
              ("-r " +:+ str_or (outer_callback_url (default (Host_ap world h) hap))
                           default_url) = true) as Hor.
  { intros default_url Hdefault. unfold str_or.
    destruct (outer_callback_url _) as [url|] eqn:Hurl; [ | done ].
    destruct url as [|c url]; [ done | ]. cbn [str_truthy]. by apply Hoverride. }
  apply fetch_gse_servers_callback_url in Hfetch as [-> | [-> | ->]].
  - by rewrite Hinner in Hcb.
  - by rewrite Hor in Hcb.
  - by rewrite Hor in Hcb.
Qed.

(** X9: of the install channel that is passed to [gen_commands], the plan
    uses the jump server and the three server lists only: two channels that
    differ in their flags ([agent_download_proxy], [channel_proxy_address])
    alone give the same result, since the flags are read from the channel
    of the host itself. *)
Theorem install_channel_argument_flags_unused call h pipeline_id is_uninstall identity hap
    ps jump us us' :
  channel_btfileserver us = channel_btfileserver us' ->
  channel_dataserver us = channel_dataserver us' ->
  channel_taskserver us = channel_taskserver us' ->
  gen_commands_params settings constants world call h pipeline_id is_uninstall identity
    hap ps (Some (jump, us))
  = gen_commands_params settings constants world call h pipeline_id is_uninstall identity
      hap ps (Some (jump, us')).
Proof.
  intros Hbt Hdata Htask. unfold gen_commands_params. cbn [default from_option id].
  assert (forall host_ap proxies,
            fetch_gse_servers settings world call h host_ap proxies (jump, us)
            = fetch_gse_servers settings world call h host_ap proxies (jump, us'))
    as Hfetch.
  { intros host_ap proxies. unfold fetch_gse_servers. by rewrite Hbt, Hdata, Htask. }
  by rewrite Hfetch.
Qed.

(** X16: under a set order that keeps exactly the distinct elements, the
    upstream nodes of a plan are duplicate-free and are exactly the
    characters of the resolved task-server string. *)
Theorem upstream_nodes_are_the_characters call h pipeline_id is_uninstall identity hap ps
    channel plan :
  list_set_ok (list_set world) ->
  gen_commands settings constants world call h pipeline_id is_uninstall identity hap ps
    channel = Ok plan ->
  exists task_servers,
    resolved_task_servers world h (ap plan) (proxies plan)
      (default (Host_install_channel world h) channel) = Ok task_servers /\
    NoDup (upstream_nodes plan) /\
    forall node, node ∈ upstream_nodes plan <-> node ∈ chars task_servers.
Proof.
  intros Hset H. apply gen_commands_Ok in H as [params H].
  apply gen_commands_params_Ok in H as (bt & d0 & data & task & pkg & cb & ac & dl & H).
  destruct H as (Hfetch & _ & _ & _ & _ & -> & _ & -> & _ & ->).
  apply fetch_gse_servers_slots in Hfetch as (_ & _ & Htask).
  exists task. split; [ done | ]. apply Hset.
Qed.

End CallbackUrl.

(** *** The caches of the batch *)

Lemma first_with_app {K : Type} `{EqDecision K} (key : Host -> K) (k : K)
    (l1 l2 : list Host) :
  first_with key k (l1 ++ l2) =
    match first_with key k l1 with
    | Some h => Some h
    | None => first_with key k l2
    end.
Proof.
  induction l1 as [|h l1 IH]; [ done | ]. cbn [app first_with].
  by destruct (decide (key h = k)).
Qed.

(** A cache that holds the value of the first host of each key keeps doing
    so when a host is added under its key only if the key is new. *)
Lemma cache_step {K V : Type} `{Countable K} (key : Host -> K) (val : Host -> V)
    (m : gmap K V) (done : list Host) (h : Host) :
  (forall k, m !! k = val <$> first_with key k done) ->
  forall k,
    match m !! key h with
    | Some _ => m
    | None => <[key h := val h]> m
    end !! k = val <$> first_with key k (done ++ [h]).
Proof.
  intros Hm k. rewrite first_with_app. cbn [first_with].
  destruct (m !! key h) as [v|] eqn:Hh.
  - rewrite Hm. destruct (first_with key k done) eqn:Hk; [ done | ].
    destruct (decide (key h = k)) as [<-|]; [ | done ].
    rewrite Hm, Hk in Hh. discriminate.
  - destruct (decide (key h = k)) as [<-|Hne].
    + rewrite lookup_insert_eq. rewrite Hm in Hh.
      by destruct (first_with key (key h) done).
    + rewrite lookup_insert_ne by done. rewrite Hm.
      by destruct (first_with key k done).
Qed.

(** The value that a host gets from such a cache is the one of the first
    host of its key, itself included. *)
Lemma cache_input {K V : Type} `{Countable K} (key : Host -> K) (val : Host -> V)
    (m : gmap K V) (done rest : list Host) (h : Host) :
  (forall k, m !! k = val <$> first_with key k done) ->
  exists first,
    first_with key (key h) (done ++ h :: rest) = Some first /\
    default (val h) (m !! key h) = val first.
Proof.
  intros Hm. rewrite first_with_app, Hm. cbn [first_with].
  destruct (first_with key (key h) done) as [first|]; [ by exists first | ].
  rewrite decide_True by done. by exists h.
Qed.

Section BatchPlans.

Variable settings : Settings.
Variable constants : Constants.
Variable world : World.

(** What a step of the loop that returns has done. *)
Lemma batch_step_inv call pipeline_id is_uninstall identities st h st' :
  batch_step settings constants world call pipeline_id is_uninstall identities st h
    = Ok st' ->
  exists host_ap plan,
    AccessPoint_ap_id_obj_map world !! ap_id h = Some host_ap /\
    gen_commands settings constants world call h pipeline_id is_uninstall
      (Some (default (Host_identity world h) (identities !! bk_host_id h)))
      (Some host_ap)
      (Some (default (Host_proxies world h) (cloud_id_proxies_map st !! bk_cloud_id h)))
      (Some (default (Host_install_channel world h)
               (install_channel_id_obj_map st !! install_channel_id h)))
      = Ok plan /\
    host_id__installation_tool_map st'
      = <[bk_host_id h := plan]> (host_id__installation_tool_map st) /\
    cloud_id_proxies_map st' =
      match cloud_id_proxies_map st !! bk_cloud_id h with
      | Some _ => cloud_id_proxies_map st
      | None => <[bk_cloud_id h := Host_proxies world h]> (cloud_id_proxies_map st)
      end /\
    install_channel_id_obj_map st' =
      match install_channel_id_obj_map st !! install_channel_id h with
      | Some _ => install_channel_id_obj_map st
      | None =>
          <[install_channel_id h := Host_install_channel world h]>
            (install_channel_id_obj_map st)
      end.
Proof.
  unfold batch_step. intros H.
  apply bind_Ok in H as (host_ap & Hap & H).
  apply bind_Ok in H as (proxies0 & Hps & H).
  apply bind_Ok in H as (channel0 & Hch & H).
  apply bind_Ok in H as (plan & Hplan & H).
  injection H as <-. exists host_ap, plan.
  destruct (AccessPoint_ap_id_obj_map world !! ap_id h); [ | discriminate ].
  injection Hap as ->. split; [ done | ]. split; [ | done ].
  destruct (cloud_id_proxies_map st !! bk_cloud_id h) as [p|] eqn:Hp;
    [ rewrite Hp in Hps | rewrite lookup_insert_eq in Hps ];
    (destruct (install_channel_id_obj_map st !! install_channel_id h) as [c|] eqn:Hc;
       [ rewrite Hc in Hch | rewrite lookup_insert_eq in Hch ]);
    cbn in Hps, Hch; by simplify_eq.
Qed.

(** The loop leaves the plans of the hosts that it does not come to. *)
Lemma batch_loop_other calls pipeline_id is_uninstall identities hosts k :
  forall i st st',
    batch_loop settings constants world calls i pipeline_id is_uninstall identities hosts
      st = Ok st' ->
    (forall h, h ∈ hosts -> bk_host_id h <> k) ->
    host_id__installation_tool_map st' !! k = host_id__installation_tool_map st !! k.
Proof.
  induction hosts as [|h0 hosts IH]; intros i st st' H Hother; cbn in H.
  - by injection H as ->.
  - apply bind_Ok in H as (st0 & Hstep & H).
    rewrite (IH _ _ _ H) by (intros h Hh; apply Hother; by right).
    apply batch_step_inv in Hstep as (host_ap & plan & _ & _ & -> & _).
    apply lookup_insert_ne, Hother. by left.
Qed.

Lemma batch_loop_plans calls pipeline_id is_uninstall identities hosts :
  forall done i st st',
    caches_of world done st ->
    batch_loop settings constants world calls i pipeline_id is_uninstall identities hosts
      st = Ok st' ->
    caches_of world (done ++ hosts) st' /\
    forall j h,
      hosts !! j = Some h ->
      exists host_ap first_proxies first_channel plan,
        AccessPoint_ap_id_obj_map world !! ap_id h = Some host_ap /\
        first_with bk_cloud_id (bk_cloud_id h) (done ++ hosts) = Some first_proxies /\
        first_with install_channel_id (install_channel_id h) (done ++ hosts)
          = Some first_channel /\
        gen_commands settings constants world (calls (i + j)%nat) h pipeline_id
          is_uninstall
          (Some (default (Host_identity world h) (identities !! bk_host_id h)))
          (Some host_ap) (Some (Host_proxies world first_proxies))
          (Some (Host_install_channel world first_channel)) = Ok plan /\
        ((forall j' h', hosts !! j' = Some h' -> (j < j')%nat ->
                        bk_host_id h' <> bk_host_id h) ->
         host_id__installation_tool_map st' !! bk_host_id h = Some plan).
Proof.
  induction hosts as [|h0 hosts IH]; intros done i st st' Hinv H; cbn in H.
  - injection H as ->. rewrite app_nil_r. split; [ done | ]. intros j h [=].
  - apply bind_Ok in H as (st0 & Hstep & H).
    apply batch_step_inv in Hstep
      as (host_ap0 & plan0 & Hap0 & Hgen0 & Hmap0 & Hcloud0 & Hchannel0).
    destruct Hinv as [Hcloud Hchannel].
    assert (caches_of world (done ++ [h0]) st0) as Hinv0.
    { split; intros c.
      - rewrite Hcloud0. by apply cache_step.
      - rewrite Hchannel0. by apply cache_step. }
    destruct (IH (done ++ [h0]) (S i) st0 st' Hinv0 H) as [Hinv' Hrest].
    rewrite <- app_assoc in Hinv', Hrest. cbn [app] in Hinv', Hrest.
    split; [ done | ]. intros [|j] h Hj; cbn in Hj.
    + injection Hj as <-.
      destruct (cache_input bk_cloud_id (Host_proxies world) _ done hosts h0 Hcloud)
        as (fp & Hfp & Hps).
      destruct (cache_input install_channel_id (Host_install_channel world) _ done hosts
                  h0 Hchannel) as (fc & Hfc & Hch).
      exists host_ap0, fp, fc, plan0. rewrite Nat.add_0_r, <- Hps, <- Hch.
      do 4 (split; [ done | ]). intros Hlast.
      rewrite (batch_loop_other _ _ _ _ _ _ _ _ _ H).
      * rewrite Hmap0. apply lookup_insert_eq.
      * intros h' Hh'. apply list_elem_of_lookup in Hh' as [j' Hj'].
        apply (Hlast (S j') h'); [ done | lia ].
    + destruct (Hrest j h Hj) as (host_ap & fp & fc & plan & Hap & Hfp & Hfc & Hgen & Hm).
      exists host_ap, fp, fc, plan.
      replace (i + S j)%nat with (S i + j)%nat by lia.
      do 4 (split; [ done | ]). intros Hlast. apply Hm.
      intros j' h' Hj' Hlt. apply (Hlast (S j') h'); [ done | lia ].
Qed.

(** X17: a batch that returns has generated, for the host at each position,
    the plan that [gen_commands] returns for it with the batch's inputs: its
    access point from the table of access points, the identity fetched in
    bulk (its own when none was fetched), and the proxies and the install
    channel of the first host of the list with the same cloud region and the
    same install channel id.  The map holds that plan under the id of the
    host, unless a later host of the list has the same id. *)
Theorem batch_plans_are_single_plans calls hosts pipeline_id is_uninstall m i h :
  batch_gen_commands settings constants world calls hosts pipeline_id is_uninstall
    = Ok m ->
  hosts !! i = Some h ->
  exists host_ap first_proxies first_channel plan,
    AccessPoint_ap_id_obj_map world !! ap_id h = Some host_ap /\
    first_with bk_cloud_id (bk_cloud_id h) hosts = Some first_proxies /\
    first_with install_channel_id (install_channel_id h) hosts = Some first_channel /\
    gen_commands settings constants world (calls i) h pipeline_id is_uninstall
      (Some (default (Host_identity world h)
               (host_id_identity_map world (map bk_host_id hosts) !! bk_host_id h)))
      (Some host_ap) (Some (Host_proxies world first_proxies))
      (Some (Host_install_channel world first_channel)) = Ok plan /\
    ((forall j h', hosts !! j = Some h' -> (i < j)%nat ->
                   bk_host_id h' <> bk_host_id h) ->
     m !! bk_host_id h = Some plan).
Proof.
  unfold batch_gen_commands. intros H Hi.
  apply bind_Ok in H as (st & Hloop & [= <-]).
  apply (batch_loop_plans _ _ _ _ _ []) in Hloop as [_ Hplans]; [ | done ].
  apply (Hplans i h Hi).
Qed.

End BatchPlans.

(** *** The inputs of a batch and of a single call *)

Section Inputs.

Variable settings : Settings.
Variable constants : Constants.
Variable world : World.

(** X18: when the bulk fetch returns several identities of one host, the
    batch uses the last one; the map of identities holds no host of which
    none was fetched (the batch then falls back to [host.identity]). *)
Theorem host_id_identity_map_last bk_host_ids k :
  host_id_identity_map world bk_host_ids !! k =
    last (filter (fun identity => identity_bk_host_id identity = k)
            (IdentityData_filter world bk_host_ids)).
Proof.
  unfold host_id_identity_map.
  induction (IdentityData_filter world bk_host_ids) as [|identity l IH] using rev_ind.
  - done.
  - rewrite foldl_snoc, filter_app, filter_cons, filter_nil.
    destruct (decide (identity_bk_host_id identity = k)) as [<-|Hne].
    + by rewrite lookup_insert_eq, last_snoc.
    + by rewrite lookup_insert_ne, app_nil_r.
Qed.

Lemma list_or_same {A : Type} (l : list A) : list_or (Some l) l = l.
Proof. by destruct l. Qed.

(** X19: the optional arguments of [gen_commands] are shortcuts.  Passing
    the records of the host itself gives the result of passing none, and
    an empty list of proxies counts as none. *)
Theorem gen_commands_optional_arguments call h pipeline_id is_uninstall :
  gen_commands settings constants world call h pipeline_id is_uninstall
    (Some (Host_identity world h)) (Some (Host_ap world h))
    (Some (Host_proxies world h)) (Some (Host_install_channel world h))
  = gen_commands settings constants world call h pipeline_id is_uninstall
      None None None None /\
  (forall identity hap channel,
     gen_commands settings constants world call h pipeline_id is_uninstall identity hap
       (Some []) channel
     = gen_commands settings constants world call h pipeline_id is_uninstall identity
         hap None channel).
Proof.
  split.
  - unfold gen_commands, gen_commands_params. cbn [default from_option id].
    by rewrite list_or_same.
  - done.
Qed.

(** X20: when an [AGENT] without install channel gets a plan.  The call
    returns a plan exactly when the access point has an agent config for the
    OS of the host, the callback URL of the settings matches the pattern,
    the table of scripts holds a script for the OS that is not the relay
    script, and the OS is Windows or the suffix table holds the OS and
    AIX. *)
Theorem agent_plan_exists_iff call h pipeline_id is_uninstall identity hap ps channel :
  node_type h = AGENT -> has_install_channel h = false ->
  (exists plan,
     gen_commands settings constants world call h pipeline_id is_uninstall identity hap
       ps channel = Ok plan) <->
  is_Some (get_agent_config (default (Host_ap world h) hap) (os_type h)) /\
  re_match_callback ("-r " +:+ BKAPP_NODEMAN_CALLBACK_URL settings) = true /\
  (exists script,
     SCRIPT_FILE_NAME_MAP constants !! os_type h = Some script /\
     script <> SETUP_PAGENT_PY constants) /\
  (lower (os_type h) = OS_WINDOWS constants \/
   (is_Some (SUFFIX_MAP constants !! lower (os_type h)) /\
    is_Some (SUFFIX_MAP constants !! OS_AIX constants))).
Proof.
  intros Hrole Hchannel.
  assert (forall host_ap proxies install_channel,
            fetch_gse_servers settings world call h host_ap proxies install_channel =
              Ok (None,
                  join "," (map server_inner_ip (btfileserver host_ap)),
                  join "," (map server_inner_ip (dataserver host_ap)),
                  join "," (map server_inner_ip (dataserver host_ap)),
                  join "," (map server_inner_ip (taskserver host_ap)),
                  package_inner_url host_ap,
                  BKAPP_NODEMAN_CALLBACK_URL settings)) as Hfetch.
  { intros. unfold fetch_gse_servers. by rewrite Hchannel, Hrole. }
  assert (choose_script_file constants h
          = getitem (SCRIPT_FILE_NAME_MAP constants !! os_type h)) as Hchoose.
  { unfold choose_script_file. rewrite Hchannel, Hrole.
    by rewrite decide_False, bool_decide_eq_false_2. }
  split.
  - intros [plan H]. apply gen_commands_Ok in H as [params H].
    apply gen_commands_params_iff in H
      as (jump & bt & d0 & data & task & pkg & cb & ac & script & dest & win & run & dl
          & Hf & Hconfig & Hmatch & Hscript & Hbranch & _).
    rewrite Hfetch in Hf. injection Hf as <- <- <- <- <- <- <-.
    rewrite Hchoose in Hscript.
    destruct (SCRIPT_FILE_NAME_MAP constants !! os_type h) as [s|] eqn:Hs;
      [ injection Hscript as -> | discriminate ].
    split; [ by eexists | ]. split; [ done | ].
    cbn zeta in Hbranch. case_bool_decide as Hrelay.
    + apply relay_commands_Ok in Hbranch as (_ & _ & [? [=]] & _).
    + split; [ by exists script | ].
      apply direct_commands_Ok in Hbranch as (_ & _ & Hrun & _).
      destruct (decide (lower (os_type h) = OS_WINDOWS constants)); [ by left | right ].
      unfold format_run_cmd_by_os_type in Hrun.
      rewrite bool_decide_eq_false_2 in Hrun by done. cbn [andb] in Hrun.
      destruct (SUFFIX_MAP constants !! lower (os_type h)); [ | discriminate ].
      destruct (SUFFIX_MAP constants !! OS_AIX constants); [ | discriminate ].
      split; by eexists.
  - intros ([ac Hconfig] & Hmatch & (script & Hscript & Hrelay) & Hshell).
    assert (exists r,
              direct_commands constants h is_uninstall (default (Host_ap world h) hap) ac
                (package_inner_url (default (Host_ap world h) hap)) script
                (suffix_slash constants (lower (os_type h)) (temp_path ac))
                (base_run_cmd_params pipeline_id (BKAPP_NODEMAN_CALLBACK_URL settings)
                   (package_inner_url (default (Host_ap world h) hap))
                   (aes_cipher_encrypt world (token_payload call h pipeline_id))
                   (port_config (default (Host_ap world h) hap))
                   (join "," (map server_inner_ip
                                (btfileserver (default (Host_ap world h) hap))))
                   (join "," (map server_inner_ip
                                (dataserver (default (Host_ap world h) hap))))
                   (join "," (map server_inner_ip
                                (taskserver (default (Host_ap world h) hap)))))
              = Ok r) as [[[[[dest win] params] run] dl] Hbranch].
    { unfold direct_commands, format_run_cmd_by_os_type.
      cbn [opt_str_truthy]. rewrite append_truthy.
      destruct Hshell as [Hw | [[s Hs] [a Ha]]].
      - rewrite (bool_decide_eq_true_2 _ Hw). cbn. by eexists.
      - rewrite Hs, Ha.
        destruct (bool_decide (lower (os_type h) = OS_WINDOWS constants)); cbn;
          by eexists. }
    eexists. apply gen_commands_Ok. exists params. apply gen_commands_params_iff.
    eexists _, _, _, _, _, _, _, ac, script, dest, win, run, dl. cbn zeta.
    split; [ apply Hfetch | ]. split; [ done | ]. split; [ done | ].
    split; [ by rewrite Hchoose, Hscript | ].
    split; [ by rewrite bool_decide_eq_false_2 | reflexivity ].
Qed.

End Inputs.

(** *** The further plans of the sample installation *)

Lemma relay_parameters_end_with_channel_flags_witness :
  match
    gen_commands_params Sample.settings Sample.constants
      (Sample.world Sample.proxy_hosts) Sample.call Cases.manual_channel_agent "p1" true
      None None None None
  with
  | Ok (plan, params) =>
      exists front,
        params = front ++ ["-R"] ++ ["-ADP 'True'"] /\ run_cmd plan = join " " params
  | Raise _ => False
  end.
Proof.
  assert (exists plan params,
            gen_commands_params Sample.settings Sample.constants
              (Sample.world Sample.proxy_hosts) Sample.call Cases.manual_channel_agent
              "p1" true None None None None = Ok (plan, params) /\
            script_file_name plan = "setup_pagent.py") as (plan & params & E & Hscript)
    by (eexists _, _; split; vm_compute; reflexivity).
  rewrite E.
  exact (relay_parameters_end_with_channel_flags Sample.settings Sample.constants
           (Sample.world Sample.proxy_hosts) Sample.call Cases.manual_channel_agent "p1"
           true None None None None plan params E Hscript).
Defined.

Lemma install_channel_argument_flags_unused_witness :
  gen_commands_params Sample.settings Sample.constants (Sample.world Sample.proxy_hosts)
    Sample.call Cases.manual_channel_agent "p1" false None None None
    (Some Sample.channel)
  = gen_commands_params Sample.settings Sample.constants
      (Sample.world Sample.proxy_hosts) Sample.call Cases.manual_channel_agent "p1" false
      None None None (Some Cases.channel_with_flags).
Proof.
  apply (install_channel_argument_flags_unused Sample.settings Sample.constants
           (Sample.world Sample.proxy_hosts) Sample.call Cases.manual_channel_agent "p1"
           false None None None Sample.channel.1 Sample.channel.2
           Cases.channel_with_flags.2); reflexivity.
Defined.

Lemma manual_relay_run_cmd_starts_with_script_witness :
  match
    gen_commands Sample.settings Sample.constants (Sample.world Sample.proxy_hosts)
      Sample.call Cases.manual_channel_agent "p1" false None None None None
  with
  | Ok plan =>
      dest_dir plan = "/tmp/" /\
      String.prefix (dest_dir plan +:+ script_file_name plan +:+ " ") (run_cmd plan)
        = true
  | Raise _ => False
  end.
Proof.
  assert (exists plan,
            gen_commands Sample.settings Sample.constants
              (Sample.world Sample.proxy_hosts) Sample.call Cases.manual_channel_agent
              "p1" false None None None None = Ok plan /\
            script_file_name plan = "setup_pagent.py" /\ dest_dir plan = "/tmp/")
    as (plan & E & Hscript & Hdest)
    by (eexists; repeat split; vm_compute; reflexivity).
  rewrite E. split; [ exact Hdest | ].
  exact (manual_relay_run_cmd_starts_with_script Sample.settings Sample.constants
           (Sample.world Sample.proxy_hosts) Sample.call Cases.manual_channel_agent "p1"
           false None None None None plan E Hscript eq_refl).
Defined.

Lemma unknown_os_gets_no_plan_witness :
  exists e,
    gen_commands Sample.settings Sample.constants (Sample.world Sample.proxy_hosts)
      Sample.call Cases.solaris_agent "p1" false None None None None = Raise e.
Proof.
  apply (unknown_os_gets_no_plan Sample.settings Sample.constants
           (Sample.world Sample.proxy_hosts) Sample.call Cases.solaris_agent "p1" false
           None None None None); [ discriminate | reflexivity ].
Defined.

Lemma dest_dir_by_branch_witness :
  match
    gen_commands Sample.settings Sample.constants (Sample.world Sample.proxy_hosts)
      Sample.call Sample.windows_pagent "p1" false None None None None
  with
  | Ok plan =>
      script_file_name plan = "setup_pagent.py" /\
      exists agent_config,
        get_agent_config (ap plan) "LINUX" = Some agent_config /\
        dest_dir plan = Sample.suffix_slash_by_os "LINUX" (temp_path agent_config)
  | Raise _ => False
  end.
Proof.
  assert (exists plan,
            gen_commands Sample.settings Sample.constants
              (Sample.world Sample.proxy_hosts) Sample.call Sample.windows_pagent "p1"
              false None None None None = Ok plan /\
            script_file_name plan = "setup_pagent.py") as (plan & E & Hscript)
    by (eexists; split; vm_compute; reflexivity).
  rewrite E. split; [ exact Hscript | ].
  destruct (dest_dir_by_branch Sample.settings Sample.constants
              (Sample.world Sample.proxy_hosts) Sample.call Sample.windows_pagent "p1"
              false None None None None plan E) as (agent_config & Hconfig & Hdest).
  rewrite Hscript in Hconfig, Hdest. by exists agent_config.
Defined.

Lemma channel_relay_downloads_from_jump_server_witness :
  match
    gen_commands_params Sample.settings Sample.constants
      (Sample.world Sample.proxy_hosts) Sample.call Cases.manual_channel_agent "p1" false
      None None None None
  with
  | Ok (plan, params) =>
      exists j,
        jump_server plan = Some j /\
        ("-l " +:+ gen_nginx_download_url Sample.settings (inner_ip j)) ∈ params /\
        ("-o " +:+ gen_nginx_download_url Sample.settings (inner_ip j)) ∈ params /\
        ("-I " +:+ inner_ip j) ∈ params
  | Raise _ => False
  end.
Proof.
  assert (exists plan params,
            gen_commands_params Sample.settings Sample.constants
              (Sample.world Sample.proxy_hosts) Sample.call Cases.manual_channel_agent
              "p1" false None None None None = Ok (plan, params) /\
            script_file_name plan = "setup_pagent.py") as (plan & params & E & Hscript)
    by (eexists _, _; split; vm_compute; reflexivity).
  rewrite E.
  exact (channel_relay_downloads_from_jump_server Sample.settings Sample.constants
           (Sample.world Sample.proxy_hosts) Sample.call Cases.manual_channel_agent "p1"
           false None None None None plan params E Hscript eq_refl).
Defined.

Lemma uninstall_changes_one_parameter_witness :
  match
    gen_commands_params Sample.settings Sample.constants
      (Sample.world Sample.proxy_hosts) Sample.call Sample.linux_agent "p1" true
      None None None None
  with
  | Ok (plan1, params1) =>
      exists plan2 params2 front back,
        gen_commands_params Sample.settings Sample.constants
          (Sample.world Sample.proxy_hosts) Sample.call Sample.linux_agent "p1" false
          None None None None = Ok (plan2, params2) /\
        params1 = front ++ "-R" :: back /\
        params2 = front ++ "" :: back /\
        script_file_name plan2 = script_file_name plan1 /\
        dest_dir plan2 = dest_dir plan1 /\
        jump_server plan2 = jump_server plan1 /\
        upstream_nodes plan2 = upstream_nodes plan1 /\
        pre_commands plan2 = pre_commands plan1
  | Raise _ => False
  end.
Proof.
  assert (exists plan params,
            gen_commands_params Sample.settings Sample.constants
              (Sample.world Sample.proxy_hosts) Sample.call Sample.linux_agent "p1" true
              None None None None = Ok (plan, params)) as (plan & params & E)
    by (eexists _, _; vm_compute; reflexivity).
  rewrite E.
  exact (uninstall_changes_one_parameter Sample.settings Sample.constants
           (Sample.world Sample.proxy_hosts) Sample.call Sample.linux_agent "p1" true
           false None None None None plan params E).
Defined.

Lemma valid_callback_urls_never_fail_witness :
  raises GenCommandsError
    (gen_commands Sample.settings Sample.constants (Sample.world Sample.proxy_hosts)
       Sample.call Sample.pagent "p1" false None None None None) = false.
Proof.
  apply (valid_callback_urls_never_fail Sample.settings Sample.constants
           (Sample.world Sample.proxy_hosts) Sample.call Sample.pagent "p1" false
           None None None None).
  - vm_compute. reflexivity.
  - vm_compute. reflexivity.
  - intros url Hurl. discriminate Hurl.
Defined.

Lemma upstream_nodes_are_the_characters_witness :
  match
    gen_commands Sample.settings Sample.constants (Sample.world Sample.proxy_hosts)
      Sample.call Sample.pagent "p1" false None None None None
  with
  | Ok plan =>
      exists task_servers,
        resolved_task_servers (Sample.world Sample.proxy_hosts) Sample.pagent (ap plan)
          (proxies plan) Sample.channel = Ok task_servers /\
        NoDup (upstream_nodes plan) /\
        forall node, node ∈ upstream_nodes plan <-> node ∈ chars task_servers
  | Raise _ => False
  end.
Proof.
  assert (exists plan,
            gen_commands Sample.settings Sample.constants
              (Sample.world Sample.proxy_hosts) Sample.call Sample.pagent "p1" false
              None None None None = Ok plan) as (plan & E)
    by (eexists; vm_compute; reflexivity).
  rewrite E.
  exact (upstream_nodes_are_the_characters Sample.settings Sample.constants
           (Sample.world Sample.proxy_hosts) Sample.call Sample.pagent "p1" false
           None None None None plan remove_dups_list_set_ok E).
Defined.

Lemma batch_plans_are_single_plans_witness :
  match
    batch_gen_commands Sample.settings Sample.constants (Sample.world Sample.proxy_hosts)
      (fun _ => Sample.call) [Sample.linux_agent; Sample.pagent] "p1" false
  with
  | Ok m =>
      exists host_ap first_proxies first_channel plan,
        AccessPoint_ap_id_obj_map (Sample.world Sample.proxy_hosts) !! 1 = Some host_ap /\
        first_with bk_cloud_id 1 [Sample.linux_agent; Sample.pagent]
          = Some first_proxies /\
        first_with install_channel_id None [Sample.linux_agent; Sample.pagent]
          = Some first_channel /\
        gen_commands Sample.settings Sample.constants (Sample.world Sample.proxy_hosts)
          Sample.call Sample.pagent "p1" false
          (Some (default (Host_identity (Sample.world Sample.proxy_hosts) Sample.pagent)
                   (host_id_identity_map (Sample.world Sample.proxy_hosts)
                      (map bk_host_id [Sample.linux_agent; Sample.pagent])
                    !! bk_host_id Sample.pagent)))
          (Some host_ap)
          (Some (Host_proxies (Sample.world Sample.proxy_hosts) first_proxies))
          (Some (Host_install_channel (Sample.world Sample.proxy_hosts) first_channel))
          = Ok plan /\
        m !! 3 = Some plan
  | Raise _ => False
  end.
Proof.
  assert (exists m,
            batch_gen_commands Sample.settings Sample.constants
              (Sample.world Sample.proxy_hosts) (fun _ => Sample.call)
              [Sample.linux_agent; Sample.pagent] "p1" false = Ok m) as (m & E)
    by (eexists; vm_compute; reflexivity).
  rewrite E.
  destruct (batch_plans_are_single_plans Sample.settings Sample.constants
              (Sample.world Sample.proxy_hosts) (fun _ => Sample.call)
              [Sample.linux_agent; Sample.pagent] "p1" false m 1%nat Sample.pagent E
              eq_refl)
    as (host_ap & fp & fc & plan & Hap & Hfp & Hfc & Hgen & Hm).
  exists host_ap, fp, fc, plan. do 4 (split; [ assumption | ]).
  apply Hm. intros [|[|[|j]]] h' Hj Hlt; try discriminate Hj; lia.
Defined.

Lemma agent_plan_exists_iff_witness :
  (exists plan,
     gen_commands Sample.settings Sample.constants (Sample.world Sample.proxy_hosts)
       Sample.call Sample.linux_agent "p1" false None None None None = Ok plan) <->
  is_Some (get_agent_config Sample.access_point "LINUX") /\
  re_match_callback ("-r " +:+ "http://example.com/backend") = true /\
  (exists script,
     SCRIPT_FILE_NAME_MAP Sample.constants !! "LINUX" = Some script /\
     script <> "setup_pagent.py") /\
  (lower "LINUX" = "windows" \/
   (is_Some (SUFFIX_MAP Sample.constants !! lower "LINUX") /\
    is_Some (SUFFIX_MAP Sample.constants !! "aix"))).
Proof.
  apply (agent_plan_exists_iff Sample.settings Sample.constants
           (Sample.world Sample.proxy_hosts) Sample.call Sample.linux_agent "p1" false
           None None None None); reflexivity.
Defined.
